(** * Windows Xbox controller adapter: a shallow embedding

    Source: [game_controllers/joysticks/xbox_controller/xbox_controller_windows.py].

    The adapter polls a joystick through the PyGame connector and turns the
    raw readings into a [ControllerState].  Python floats are IEEE binary64
    numbers and are modelled by Rocq's primitive floats (same format, same
    comparison); Python ints are [Z]; the two dictionaries [axis_ids] and
    [button_ids] are [gmap]s.  Everything the code does to its collaborators
    (connector, joystick, logger) is threaded through a state-and-exception
    monad whose state records the calls in program order. *)

From Stdlib Require Import Floats ZArith Sorted.
From stdpp Require Import gmap strings list pretty sorting.

Set Warnings "-inexact-float".

Local Open Scope string_scope.
Local Open Scope Z_scope.

(** ** Enumerations *)

(** [class _ButtonKeys(Enum)].  [members] is the iteration order of the
    class (declaration order; the values are pairwise distinct, so there are
    no aliases), [of_value] is the lookup by value done by the call
    [_ButtonKeys(i)]. *)
Module _ButtonKeys.

Inductive t : Set :=
| A | B | X | Y | LB | RB | VIEW | MENU | LEFT_STICK | RIGHT_STICK | SCREENSHOT.

Definition value (k : t) : Z :=
  match k with
  | A => 0 | B => 1 | X => 2 | Y => 3 | LB => 4 | RB => 5
  | VIEW => 6 | MENU => 7 | LEFT_STICK => 8 | RIGHT_STICK => 9
  | SCREENSHOT => 11
  end.

Definition name (k : t) : string :=
  match k with
  | A => "A" | B => "B" | X => "X" | Y => "Y" | LB => "LB" | RB => "RB"
  | VIEW => "VIEW" | MENU => "MENU" | LEFT_STICK => "LEFT_STICK"
  | RIGHT_STICK => "RIGHT_STICK" | SCREENSHOT => "SCREENSHOT"
  end.

Definition members : list t :=
  [A; B; X; Y; LB; RB; VIEW; MENU; LEFT_STICK; RIGHT_STICK; SCREENSHOT].

Definition of_value (i : Z) : option t :=
  match i with
  | 0 => Some A | 1 => Some B | 2 => Some X | 3 => Some Y
  | 4 => Some LB | 5 => Some RB | 6 => Some VIEW | 7 => Some MENU
  | 8 => Some LEFT_STICK | 9 => Some RIGHT_STICK | 11 => Some SCREENSHOT
  | _ => None
  end.

End _ButtonKeys.

(** [class _DPadKeys(Enum)]. *)
Module _DPadKeys.

Inductive t : Set := HORIZONTAL | VERTICAL.

Definition value (k : t) : Z :=
  match k with HORIZONTAL => 0 | VERTICAL => 1 end.

End _DPadKeys.

(** [class _AxisKeys(Enum)]; the triggers sit at the values 4 and 5. *)
Module _AxisKeys.

Inductive t : Set :=
| LEFT_STICK_HORIZONTAL
| LEFT_STICK_VERTICAL
| LEFT_ANALOG_TRIGGER
| RIGHT_STICK_HORIZONTAL
| RIGHT_STICK_VERTICAL
| RIGHT_ANALOG_TRIGGER.

Definition value (k : t) : Z :=
  match k with
  | LEFT_STICK_HORIZONTAL => 0
  | LEFT_STICK_VERTICAL => 1
  | LEFT_ANALOG_TRIGGER => 4
  | RIGHT_STICK_HORIZONTAL => 2
  | RIGHT_STICK_VERTICAL => 3
  | RIGHT_ANALOG_TRIGGER => 5
  end.

Definition members : list t :=
  [LEFT_STICK_HORIZONTAL; LEFT_STICK_VERTICAL; LEFT_ANALOG_TRIGGER;
   RIGHT_STICK_HORIZONTAL; RIGHT_STICK_VERTICAL; RIGHT_ANALOG_TRIGGER].

Definition of_value (i : Z) : option t :=
  match i with
  | 0 => Some LEFT_STICK_HORIZONTAL
  | 1 => Some LEFT_STICK_VERTICAL
  | 4 => Some LEFT_ANALOG_TRIGGER
  | 2 => Some RIGHT_STICK_HORIZONTAL
  | 3 => Some RIGHT_STICK_VERTICAL
  | 5 => Some RIGHT_ANALOG_TRIGGER
  | _ => None
  end.

End _AxisKeys.

(** ** The state model *)

(** Modelled from the spec: the dataclasses [StickState],
    [ControllerAxesState], [ControllerDPadState] and [ControllerState] of
    [game_controllers.models] are imported by the source but not part of it.
    The field names are the keyword arguments the source passes (section 3 of
    the specification); [ControllerDPadState] is built positionally, its
    fields are the specification's [horizontal] and [vertical], in that
    order. *)
Record StickState : Set := mkStickState {
  horizontal_right : float;
  vertical_down : float
}.

Record ControllerAxesState : Set := mkControllerAxesState {
  left_stick : StickState;
  right_stick : StickState;
  left_analog_trigger : float;
  right_analog_trigger : float
}.

Record ControllerDPadState : Set := mkControllerDPadState {
  horizontal : Z;
  vertical : Z
}.

(** [@dataclass class _ButtonPressedState]: the fields in the order the
    class body declares them ([SCREENSHOT] comes before the two stick
    buttons).  [fields] is what [dataclasses.fields(self)] enumerates: name
    and [getattr] accessor of every field, in that order.  The base class
    [ControllerButtonPressedState] is not part of the source; following the
    specification (one flag per known button key) it adds no field. *)
Module _ButtonPressedState.

Record t : Set := mk {
  A : bool;
  B : bool;
  X : bool;
  Y : bool;
  LB : bool;
  RB : bool;
  VIEW : bool;
  MENU : bool;
  SCREENSHOT : bool;
  LEFT_STICK : bool;
  RIGHT_STICK : bool
}.

Definition fields : list (string * (t → bool)) :=
  [("A", A); ("B", B); ("X", X); ("Y", Y); ("LB", LB); ("RB", RB);
   ("VIEW", VIEW); ("MENU", MENU); ("SCREENSHOT", SCREENSHOT);
   ("LEFT_STICK", LEFT_STICK); ("RIGHT_STICK", RIGHT_STICK)].

(** [[field.name for field in fields(self) if getattr(self, field.name)]] *)
Definition get_pressed_buttons (self : t) : list string :=
  map fst (List.filter (λ field, snd field self) fields).

End _ButtonPressedState.

Record ControllerState : Set := mkControllerState {
  axes : ControllerAxesState;
  buttons : _ButtonPressedState.t;
  d_pad : ControllerDPadState
}.

(** [VOID_BUTTONS]: button indices assigned to no button. *)
Definition VOID_BUTTONS : list Z := [10; 12; 13; 14; 15].

(** ** The collaborators: joystick handles, connector, logger *)

(** Modelled from the spec: the connector ([PyGameConnector]) and the
    joystick object it creates are collaborators outside the source; their
    interface is the one of section 6 of the specification.  A [RawHandle] is
    what a joystick object answers when it is asked, at one point in time:
    its name, its axis and button counts, and a value for every axis, button
    and hat index (reads do not fail; a hat answers a pair of integers). *)
Record RawHandle : Type := mkRawHandle {
  raw_name : string;
  raw_numaxes : Z;
  raw_numbuttons : Z;
  raw_axis : Z → float;
  raw_button : Z → bool;
  raw_hat : Z → Z * Z
}.

(** The arguments of the three [_LOGGER.debug] calls of [get_state].  The
    source formats them into f-strings; the record keeps the formatted
    values themselves. *)
Inductive DebugRecord : Type :=
| DebugAxes (a : ControllerAxesState)
| DebugButtons (b : _ButtonPressedState.t)
| DebugPressedButtons (names : list string).

(** One call made on a collaborator.  Joystick calls carry the id of the
    joystick they are made on. *)
Inductive Call : Type :=
| ConnectorInitJoystick
| ConnectorCreateJoystick (joystick_id : Z)
| ConnectorGetEvents
| JoystickInit (j : Z)
| JoystickGetName (j : Z)
| JoystickGetNumaxes (j : Z)
| JoystickGetNumbuttons (j : Z)
| JoystickGetAxis (j i : Z)
| JoystickGetButton (j i : Z)
| JoystickGetHat (j i : Z)
| JoystickQuit (j : Z)
| LoggerInfo (msg : string)
| LoggerDebug (r : DebugRecord).

(** Everything outside the adapter: [sys.platform], the joysticks the
    connector hands out (by id), the effective level of [_LOGGER], and the
    calls made so far, oldest first. *)
Record World : Type := mkWorld {
  platform : string;
  joysticks : Z → RawHandle;
  effective_level : Z;
  calls : list Call
}.

(** ** Exceptions and the monad *)

Inductive exn : Set :=
| ValueError (msg : string).

Inductive result (T : Type) : Type :=
| Ok (v : T)
| Raise (e : exn).

Arguments Ok {T} v.
Arguments Raise {T} e.

Definition M (T : Type) : Type := World → result T * World.

#[global] Instance M_ret : MRet M := λ T v w, (Ok v, w).

#[global] Instance M_bind : MBind M := λ T U f m w,
  match m w with
  | (Ok v, w') => f v w'
  | (Raise e, w') => (Raise e, w')
  end.

Definition raise {T : Type} (e : exn) : M T := λ w, (Raise e, w).

(** Ask the world something without changing it. *)
Definition ask {T : Type} (f : World → T) : M T := λ w, (Ok (f w), w).

(** Record a call. *)
Definition call (c : Call) : M () := λ w,
  (Ok (), mkWorld (platform w) (joysticks w) (effective_level w) (calls w ++ [c])).

(** A Python [for] loop over [l] whose body updates the loop state [s]. *)
Fixpoint for_each {T S : Type} (l : list T) (body : S → T → M S) (s : S) : M S :=
  match l with
  | [] => mret s
  | x :: l' => s' ← body s x; for_each l' body s'
  end.

(** A list comprehension [[f x for x in l if cond(x)]] with an effectful
    condition. *)
Fixpoint comprehension {T U : Type} (l : list T) (cond : T → M bool) (f : T → U) : M (list U) :=
  match l with
  | [] => mret []
  | x :: l' =>
      c ← cond x;
      rest ← comprehension l' cond f;
      mret (if c : bool then f x :: rest else rest)
  end.

(** A list comprehension [[f x for x in l]] with an effectful element. *)
Fixpoint map_M {T U : Type} (f : T → M U) (l : list T) : M (list U) :=
  match l with
  | [] => mret []
  | x :: l' => y ← f x; rest ← map_M f l'; mret (y :: rest)
  end.

(** *** Primitive operations on the collaborators *)

Definition sys_platform : M string := ask platform.

Definition connector_init_joystick : M () := call ConnectorInitJoystick.

(** [pygame_connector.create_joystick(joystick_id)]: the joystick object is
    represented by its id. *)
Definition connector_create_joystick (joystick_id : Z) : M Z :=
  call (ConnectorCreateJoystick joystick_id);; mret joystick_id.

Definition connector_get_events : M () := call ConnectorGetEvents.

Definition joystick_init (j : Z) : M () := call (JoystickInit j).

Definition joystick_get_name (j : Z) : M string :=
  call (JoystickGetName j);; ask (λ w, raw_name (joysticks w j)).

Definition joystick_get_numaxes (j : Z) : M Z :=
  call (JoystickGetNumaxes j);; ask (λ w, raw_numaxes (joysticks w j)).

Definition joystick_get_numbuttons (j : Z) : M Z :=
  call (JoystickGetNumbuttons j);; ask (λ w, raw_numbuttons (joysticks w j)).

Definition joystick_get_axis (j i : Z) : M float :=
  call (JoystickGetAxis j i);; ask (λ w, raw_axis (joysticks w j) i).

Definition joystick_get_button (j i : Z) : M bool :=
  call (JoystickGetButton j i);; ask (λ w, raw_button (joysticks w j) i).

Definition joystick_get_hat (j i : Z) : M (Z * Z) :=
  call (JoystickGetHat j i);; ask (λ w, raw_hat (joysticks w j) i).

Definition joystick_quit (j : Z) : M () := call (JoystickQuit j).

Definition logger_info (msg : string) : M () := call (LoggerInfo msg).

Definition logger_debug (r : DebugRecord) : M () := call (LoggerDebug r).

Definition logger_getEffectiveLevel : M Z := ask effective_level.

(** [logging.DEBUG] *)
Definition logging_DEBUG : Z := 10.

(** *** Python built-ins used by the source *)

(** [s.startswith(p)] *)
Definition startswith (s p : string) : bool := String.prefix p s.

(** [sub in s] for strings. *)
Fixpoint str_contains (s sub : string) : bool :=
  String.prefix sub s ||
  match s with
  | EmptyString => false
  | String _ s' => str_contains s' sub
  end.

(** [range(n)] *)
Definition range (n : Z) : list Z := seqZ 0 n.

(** [[x] * n] *)
Definition list_repeat {T : Type} (x : T) (n : Z) : list T := replicate (Z.to_nat n) x.

(** [int(x)] on an [int]. *)
Definition int (x : Z) : Z := x.

(** [hat[i]] on the pair a hat returns, for the two indices of [_DPadKeys]. *)
Definition hat_item (hat : Z * Z) (i : Z) : Z :=
  if i =? 0 then fst hat else snd hat.

(** The calls [_AxisKeys(i)] and [_ButtonKeys(i)]: lookup by value, a
    [ValueError] when no member has the value. *)
Definition _AxisKeys_call (i : Z) : M _AxisKeys.t :=
  match _AxisKeys.of_value i with
  | Some k => mret k
  | None => raise (ValueError (pretty i +:+ " is not a valid _AxisKeys"))
  end.

Definition _ButtonKeys_call (i : Z) : M _ButtonKeys.t :=
  match _ButtonKeys.of_value i with
  | Some k => mret k
  | None => raise (ValueError (pretty i +:+ " is not a valid _ButtonKeys"))
  end.

(** ** [class WindowsXboxPyGameJoystick] *)

(** The attributes of an instance.  [joystick] is the joystick object the
    connector created (its id); [pygame_connector] is the one connector of
    the world and needs no attribute of its own. *)
Record WindowsXboxPyGameJoystick : Type := mkWindowsXboxPyGameJoystick {
  joystick : Z;
  axis_states : list float;
  button_states : list bool;
  axis_ids : gmap Z _AxisKeys.t;
  button_ids : gmap Z _ButtonKeys.t;
  dead_zone : float
}.

(** [WindowsXboxPyGameJoystick.__init__(self, pygame_connector, joystick_id)] *)
Definition __init__ (joystick_id : Z) : M WindowsXboxPyGameJoystick :=
  connector_init_joystick;;
  joystick ← connector_create_joystick joystick_id;
  joystick_init joystick;;
  name ← joystick_get_name joystick;
  logger_info ("detected joystick device: " +:+ name);;
  sys_platform ← sys_platform;
  if negb (startswith sys_platform "win") then
    raise (ValueError "This class is only supported on Windows systems")
  else
    logger_info "Running on Windows";;
    (if negb (String.eqb name "Xbox Series X Controller") then
       raise (ValueError ("Xbox controller not detected. Controller detected was " +:+ name))
     else mret ());;
    numaxes ← joystick_get_numaxes joystick;
    let axis_states := list_repeat 0%float numaxes in
    numbuttons ← joystick_get_numbuttons joystick;
    let button_states := list_repeat false numbuttons in
    let dead_zone := 0.07%float in
    numaxes ← joystick_get_numaxes joystick;
    axis_ids ← for_each (range numaxes)
                 (λ axis_ids i, k ← _AxisKeys_call i; mret (<[i:=k]> axis_ids)) ∅;
    numbuttons ← joystick_get_numbuttons joystick;
    let mapped_buttons := filter (λ x, x ∉ VOID_BUTTONS) (range numbuttons) in
    button_ids ← for_each mapped_buttons
                   (λ button_ids i, k ← _ButtonKeys_call i; mret (<[i:=k]> button_ids)) ∅;
    mret (mkWindowsXboxPyGameJoystick
            joystick axis_states button_states axis_ids button_ids dead_zone).

(** [WindowsXboxPyGameJoystick.get_state(self)] *)
Definition get_state (self : WindowsXboxPyGameJoystick) : M ControllerState :=
  connector_get_events;;
  left_stick_horizontal ←
    joystick_get_axis (joystick self) (_AxisKeys.value _AxisKeys.LEFT_STICK_HORIZONTAL);
  left_stick_vertical ←
    joystick_get_axis (joystick self) (_AxisKeys.value _AxisKeys.LEFT_STICK_VERTICAL);
  right_stick_horizontal ←
    joystick_get_axis (joystick self) (_AxisKeys.value _AxisKeys.RIGHT_STICK_HORIZONTAL);
  right_stick_vertical ←
    joystick_get_axis (joystick self) (_AxisKeys.value _AxisKeys.RIGHT_STICK_VERTICAL);
  left_analog_trigger ←
    joystick_get_axis (joystick self) (_AxisKeys.value _AxisKeys.LEFT_ANALOG_TRIGGER);
  right_analog_trigger ←
    joystick_get_axis (joystick self) (_AxisKeys.value _AxisKeys.RIGHT_ANALOG_TRIGGER);
  let left_stick_horizontal :=
    if (abs left_stick_horizontal <? dead_zone self)%float
    then 0%float else left_stick_horizontal in
  let left_stick_vertical :=
    if (abs left_stick_vertical <? dead_zone self)%float
    then 0%float else left_stick_vertical in
  let right_stick_horizontal :=
    if (abs right_stick_horizontal <? dead_zone self)%float
    then 0%float else right_stick_horizontal in
  let right_stick_vertical :=
    if (abs right_stick_vertical <? dead_zone self)%float
    then 0%float else right_stick_vertical in
  let left_analog_trigger :=
    if (abs left_analog_trigger <? dead_zone self)%float
    then 0%float else left_analog_trigger in
  let right_analog_trigger :=
    if (abs right_analog_trigger <? dead_zone self)%float
    then 0%float else right_analog_trigger in
  let axes :=
    mkControllerAxesState
      (mkStickState left_stick_horizontal left_stick_vertical)
      (mkStickState right_stick_horizontal right_stick_vertical)
      left_analog_trigger
      right_analog_trigger in
  A ← joystick_get_button (joystick self) (_ButtonKeys.value _ButtonKeys.A);
  B ← joystick_get_button (joystick self) (_ButtonKeys.value _ButtonKeys.B);
  X ← joystick_get_button (joystick self) (_ButtonKeys.value _ButtonKeys.X);
  Y ← joystick_get_button (joystick self) (_ButtonKeys.value _ButtonKeys.Y);
  LB ← joystick_get_button (joystick self) (_ButtonKeys.value _ButtonKeys.LB);
  RB ← joystick_get_button (joystick self) (_ButtonKeys.value _ButtonKeys.RB);
  VIEW ← joystick_get_button (joystick self) (_ButtonKeys.value _ButtonKeys.VIEW);
  MENU ← joystick_get_button (joystick self) (_ButtonKeys.value _ButtonKeys.MENU);
  SCREENSHOT ←
    joystick_get_button (joystick self) (_ButtonKeys.value _ButtonKeys.SCREENSHOT);
  LEFT_STICK ←
    joystick_get_button (joystick self) (_ButtonKeys.value _ButtonKeys.LEFT_STICK);
  RIGHT_STICK ←
    joystick_get_button (joystick self) (_ButtonKeys.value _ButtonKeys.RIGHT_STICK);
  let buttons :=
    _ButtonPressedState.mk A B X Y LB RB VIEW MENU SCREENSHOT LEFT_STICK RIGHT_STICK in
  hat ← joystick_get_hat (joystick self) 0;
  let d_pad_state :=
    mkControllerDPadState
      (int (hat_item hat (_DPadKeys.value _DPadKeys.HORIZONTAL)))
      (int (hat_item hat (_DPadKeys.value _DPadKeys.VERTICAL))) in
  pressed_button_ids ←
    comprehension _ButtonKeys.members
      (λ button, joystick_get_button (joystick self) (_ButtonKeys.value button))
      _ButtonKeys.value;
  pressed_buttons ← map_M _ButtonKeys_call pressed_button_ids;
  level ← logger_getEffectiveLevel;
  (if level =? logging_DEBUG then
     logger_debug (DebugAxes axes);;
     logger_debug (DebugButtons buttons);;
     logger_debug (DebugPressedButtons (map _ButtonKeys.name pressed_buttons))
   else mret ());;
  mret (mkControllerState axes buttons d_pad_state).

(** [WindowsXboxPyGameJoystick.dispose(self)] *)
Definition dispose (self : WindowsXboxPyGameJoystick) : M () :=
  joystick_quit (joystick self).

(** ** Vocabulary of the statements *)

(** The field of an axes state that carries the channel of an axis key. *)
Definition channel (k : _AxisKeys.t) (a : ControllerAxesState) : float :=
  match k with
  | _AxisKeys.LEFT_STICK_HORIZONTAL => horizontal_right (left_stick a)
  | _AxisKeys.LEFT_STICK_VERTICAL => vertical_down (left_stick a)
  | _AxisKeys.LEFT_ANALOG_TRIGGER => left_analog_trigger a
  | _AxisKeys.RIGHT_STICK_HORIZONTAL => horizontal_right (right_stick a)
  | _AxisKeys.RIGHT_STICK_VERTICAL => vertical_down (right_stick a)
  | _AxisKeys.RIGHT_ANALOG_TRIGGER => right_analog_trigger a
  end.

(** Two handles answer every axis, button and hat read alike. *)
Definition same_readings (h1 h2 : RawHandle) : Prop :=
  (∀ i, raw_axis h1 i = raw_axis h2 i) ∧
  (∀ i, raw_button h1 i = raw_button h2 i) ∧
  (∀ i, raw_hat h1 i = raw_hat h2 i).

(** Two handles answer alike at the indices of the key enumerations and at
    hat 0. *)
Definition same_mapped_readings (h1 h2 : RawHandle) : Prop :=
  (∀ k, raw_axis h1 (_AxisKeys.value k) = raw_axis h2 (_AxisKeys.value k)) ∧
  (∀ k, raw_button h1 (_ButtonKeys.value k) = raw_button h2 (_ButtonKeys.value k)) ∧
  raw_hat h1 0 = raw_hat h2 0.

(** A sample world for the examples: one controller with the given name,
    counts and readings behind every joystick id. *)
Definition sample_world (plat name : string) (numaxes numbuttons : Z)
    (axis : Z → float) (button : Z → bool) (hat : Z * Z) (level : Z) : World :=
  mkWorld plat (λ _, mkRawHandle name numaxes numbuttons axis button (λ _, hat)) level [].

(** A ready adapter as [__init__] leaves it on a six-axis, sixteen-button
    controller: the expected result of the construction example below. *)
Definition sample_adapter : WindowsXboxPyGameJoystick :=
  mkWindowsXboxPyGameJoystick 0
    (replicate 6 0%float) (replicate 16 false)
    (list_to_map [(0, _AxisKeys.LEFT_STICK_HORIZONTAL); (1, _AxisKeys.LEFT_STICK_VERTICAL);
                  (2, _AxisKeys.RIGHT_STICK_HORIZONTAL); (3, _AxisKeys.RIGHT_STICK_VERTICAL);
                  (4, _AxisKeys.LEFT_ANALOG_TRIGGER); (5, _AxisKeys.RIGHT_ANALOG_TRIGGER)])
    (list_to_map [(0, _ButtonKeys.A); (1, _ButtonKeys.B); (2, _ButtonKeys.X);
                  (3, _ButtonKeys.Y); (4, _ButtonKeys.LB); (5, _ButtonKeys.RB);
                  (6, _ButtonKeys.VIEW); (7, _ButtonKeys.MENU);
                  (8, _ButtonKeys.LEFT_STICK); (9, _ButtonKeys.RIGHT_STICK);
                  (11, _ButtonKeys.SCREENSHOT)])
    0.07%float.

(** The world after further calls. *)
Definition add_calls (w : World) (cs : list Call) : World :=
  mkWorld (platform w) (joysticks w) (effective_level w) (calls w ++ cs).

(** The state [get_state] assembles from the answers of a handle [h] under
    the dead zone [dz]; [get_state_run] below proves that it does. *)
Definition snapshot (dz : float) (h : RawHandle) : ControllerState :=
  let filtered i := if (abs (raw_axis h i) <? dz)%float then 0%float else raw_axis h i in
  mkControllerState
    (mkControllerAxesState
       (mkStickState (filtered 0) (filtered 1))
       (mkStickState (filtered 2) (filtered 3))
       (filtered 4) (filtered 5))
    (_ButtonPressedState.mk
       (raw_button h 0) (raw_button h 1) (raw_button h 2) (raw_button h 3)
       (raw_button h 4) (raw_button h 5) (raw_button h 6) (raw_button h 7)
       (raw_button h 11) (raw_button h 8) (raw_button h 9))
    (mkControllerDPadState (fst (raw_hat h 0)) (snd (raw_hat h 0))).

(** The members of [_ButtonKeys] the handle [h] reports as pressed, in the
    declaration order of the enumeration. *)
Definition pressed_keys (h : RawHandle) : list _ButtonKeys.t :=
  List.filter (λ k, raw_button h (_ButtonKeys.value k)) _ButtonKeys.members.

(** The calls of one [get_state] on joystick [j] up to the logging. *)
Definition poll_calls (j : Z) : list Call :=
  [ConnectorGetEvents;
   JoystickGetAxis j 0; JoystickGetAxis j 1; JoystickGetAxis j 2;
   JoystickGetAxis j 3; JoystickGetAxis j 4; JoystickGetAxis j 5;
   JoystickGetButton j 0; JoystickGetButton j 1; JoystickGetButton j 2;
   JoystickGetButton j 3; JoystickGetButton j 4; JoystickGetButton j 5;
   JoystickGetButton j 6; JoystickGetButton j 7; JoystickGetButton j 11;
   JoystickGetButton j 8; JoystickGetButton j 9;
   JoystickGetHat j 0;
   JoystickGetButton j 0; JoystickGetButton j 1; JoystickGetButton j 2;
   JoystickGetButton j 3; JoystickGetButton j 4; JoystickGetButton j 5;
   JoystickGetButton j 6; JoystickGetButton j 7; JoystickGetButton j 8;
   JoystickGetButton j 9; JoystickGetButton j 11].

(** The logger calls of one [get_state]: three records at level DEBUG, none
    otherwise. *)
Definition debug_calls (level : Z) (dz : float) (h : RawHandle) : list Call :=
  if level =? logging_DEBUG then
    [LoggerDebug (DebugAxes (axes (snapshot dz h)));
     LoggerDebug (DebugButtons (buttons (snapshot dz h)));
     LoggerDebug (DebugPressedButtons (map _ButtonKeys.name (pressed_keys h)))]
  else [].

(** Position of a name in a list of names (its length when absent). *)
Fixpoint position (names : list string) (s : string) : nat :=
  match names with
  | [] => 0%nat
  | n :: names' => if String.eqb n s then 0%nat else S (position names' s)
  end.

(** The names of [_ButtonKeys] in declaration order, and the names of the
    fields of [_ButtonPressedState] in declaration order. *)
Definition key_order : list string := map _ButtonKeys.name _ButtonKeys.members.

Definition field_order : list string := map fst _ButtonPressedState.fields.

(** [names] lists names in the order of [order]: positions strictly
    increase along the list. *)
Definition ordered_by (order names : list string) : Prop :=
  StronglySorted (λ a b, (position order a < position order b)%nat) names.

#[global] Instance ordered_by_dec (order names : list string) :
  Decision (ordered_by order names).
Proof. unfold ordered_by. apply _. Defined.

(** The button key behind a field of [_ButtonPressedState]. *)
Definition pressed (b : _ButtonPressedState.t) (k : _ButtonKeys.t) : bool :=
  match k with
  | _ButtonKeys.A => _ButtonPressedState.A b
  | _ButtonKeys.B => _ButtonPressedState.B b
  | _ButtonKeys.X => _ButtonPressedState.X b
  | _ButtonKeys.Y => _ButtonPressedState.Y b
  | _ButtonKeys.LB => _ButtonPressedState.LB b
  | _ButtonKeys.RB => _ButtonPressedState.RB b
  | _ButtonKeys.VIEW => _ButtonPressedState.VIEW b
  | _ButtonKeys.MENU => _ButtonPressedState.MENU b
  | _ButtonKeys.LEFT_STICK => _ButtonPressedState.LEFT_STICK b
  | _ButtonKeys.RIGHT_STICK => _ButtonPressedState.RIGHT_STICK b
  | _ButtonKeys.SCREENSHOT => _ButtonPressedState.SCREENSHOT b
  end.

(** The button keys in the order of the fields of [_ButtonPressedState]. *)
Definition field_keys : list _ButtonKeys.t :=
  [_ButtonKeys.A; _ButtonKeys.B; _ButtonKeys.X; _ButtonKeys.Y; _ButtonKeys.LB;
   _ButtonKeys.RB; _ButtonKeys.VIEW; _ButtonKeys.MENU; _ButtonKeys.SCREENSHOT;
   _ButtonKeys.LEFT_STICK; _ButtonKeys.RIGHT_STICK].

(** The last call of a world, if any. *)
Definition last_call (w : World) : option Call := last (calls w).

(** The calls every construction starts with. *)
Definition init_prefix_calls (joystick_id : Z) (name : string) : list Call :=
  [ConnectorInitJoystick; ConnectorCreateJoystick joystick_id;
   JoystickInit joystick_id; JoystickGetName joystick_id;
   LoggerInfo ("detected joystick device: " +:+ name)].

(** Readings for the examples: the axis readings of the end-to-end scenario
    of the specification, and a pressed state given by the pressed indices. *)
Definition scenario_axis (i : Z) : float :=
  match i with
  | 0 => 0.03 | 1 => -0.5 | 2 => 0.02 | 3 => 0.9 | 4 => 0.0 | 5 => 0.2
  | _ => 0
  end%float.

Definition pressed_at (indices : list Z) (i : Z) : bool :=
  existsb (Z.eqb i) indices.

(** An Xbox Series X controller on Windows, with six axes and sixteen
    buttons, the scenario's axis readings, [A] and [X] pressed, the hat at
    [(1, -1)], and the logger at level DEBUG. *)
Definition xbox_world : World :=
  sample_world "win32" "Xbox Series X Controller" 6 16
    scenario_axis (pressed_at [0; 2]) (1, -1) logging_DEBUG.

(** The same controller reporting two axes and three buttons only. *)
Definition small_world : World :=
  sample_world "win32" "Xbox Series X Controller" 2 3
    scenario_axis (pressed_at [0; 2]) (1, -1) logging_DEBUG.

(** The adapter [__init__] builds on [small_world]. *)
Definition small_adapter : WindowsXboxPyGameJoystick :=
  mkWindowsXboxPyGameJoystick 0
    (replicate 2 0%float) (replicate 3 false)
    (list_to_map [(0, _AxisKeys.LEFT_STICK_HORIZONTAL); (1, _AxisKeys.LEFT_STICK_VERTICAL)])
    (list_to_map [(0, _ButtonKeys.A); (1, _ButtonKeys.B); (2, _ButtonKeys.X)])
    0.07%float.

(** The controller with [SCREENSHOT] (11) and [LEFT_STICK] (8) pressed. *)
Definition screenshot_world : World :=
  sample_world "win32" "Xbox Series X Controller" 6 16
    scenario_axis (pressed_at [8; 11]) (0, 0) logging_DEBUG.

(** The controller on a Linux system, and another pad on Windows. *)
Definition linux_world : World :=
  sample_world "linux" "Xbox Series X Controller" 6 16
    scenario_axis (pressed_at []) (0, 0) 20.

Definition other_pad_world : World :=
  sample_world "win32" "Generic USB Joystick" 6 16
    scenario_axis (pressed_at []) (0, 0) 20.

(** A controller reporting seven axes, and one reporting seventeen buttons. *)
Definition seven_axes_world : World :=
  sample_world "win32" "Xbox Series X Controller" 7 16
    scenario_axis (pressed_at []) (0, 0) 20.

Definition seventeen_buttons_world : World :=
  sample_world "win32" "Xbox Series X Controller" 6 17
    scenario_axis (pressed_at []) (0, 0) 20.

(** ** The demo script: [print_state] *)

Set Warnings "-register-all".

(** A value of the nested mapping the demo prints: a [dict] (its items in
    insertion order) or anything else, kept as the text [str] gives for it. *)
Inductive PyValue : Set :=
| PyDict (items : list (string * PyValue))
| PyOther (str : string).

(** The lines [print_state(v, indent)] prints when [v] is a dict. *)
Fixpoint print_dict (v : PyValue) (indent : string) : list string :=
  match v with
  | PyOther _ => []
  | PyDict items =>
      (fix loop (items : list (string * PyValue)) : list string :=
         match items with
         | [] => []
         | (k, v) :: rest =>
             (match v with
              | PyDict _ => (indent +:+ k +:+ ":") :: print_dict v (indent +:+ "  ")
              | PyOther s => [indent +:+ k +:+ ": " +:+ s]
              end ++ loop rest)%list
         end) items
  end.

(** [print_state(state_dict, indent)] of the [__main__] block: the lines it
    prints, in order. *)
Definition print_state (state_dict : list (string * PyValue)) (indent : string) : list string :=
  print_dict (PyDict state_dict) indent.

(** The number of keys of a nested mapping, at all levels. *)
Fixpoint count_keys (v : PyValue) : nat :=
  match v with
  | PyOther _ => 0%nat
  | PyDict items =>
      (fix loop (items : list (string * PyValue)) : nat :=
         match items with
         | [] => 0%nat
         | (_, v) :: rest => S (count_keys v + loop rest)
         end) items
  end.

(** A nested mapping shaped like the one the demo prints. *)
Definition sample_dict : list (string * PyValue) :=
  [("axes",
    PyDict [("left_stick",
             PyDict [("horizontal_right", PyOther "0.0");
                     ("vertical_down", PyOther "-0.5")]);
            ("left_analog_trigger", PyOther "0.0")]);
   ("buttons", PyDict []);
   ("d_pad", PyDict [("horizontal", PyOther "1"); ("vertical", PyOther "-1")])].

(** ** Vocabulary for the calls *)

(** What one call of [get_state] on joystick [j] may do: pump the events,
    read an axis 0..5, read a button that is a member of [_ButtonKeys] (so
    none of [VOID_BUTTONS]), read hat 0, log at level DEBUG. *)
Definition poll_call_ok (j : Z) (c : Call) : Prop :=
  match c with
  | ConnectorGetEvents => True
  | JoystickGetAxis j' i => j' = j ∧ 0 ≤ i ≤ 5
  | JoystickGetButton j' i =>
      j' = j ∧ (i ∉ VOID_BUTTONS) ∧ is_Some (_ButtonKeys.of_value i)
  | JoystickGetHat j' i => j' = j ∧ i = 0
  | LoggerDebug _ => True
  | _ => False
  end.

(** What the construction may do after its first five calls. *)
Definition init_call_ok (j : Z) (c : Call) : Prop :=
  c = LoggerInfo "Running on Windows" ∨
  c = JoystickGetNumaxes j ∨
  c = JoystickGetNumbuttons j.

Definition is_axis_read (j i : Z) (c : Call) : bool :=
  match c with JoystickGetAxis j' i' => (j' =? j) && (i' =? i) | _ => false end.

Definition is_button_read (j i : Z) (c : Call) : bool :=
  match c with JoystickGetButton j' i' => (j' =? j) && (i' =? i) | _ => false end.

Definition is_hat_read (j i : Z) (c : Call) : bool :=
  match c with JoystickGetHat j' i' => (j' =? j) && (i' =? i) | _ => false end.

Definition is_logger_call (c : Call) : bool :=
  match c with LoggerInfo _ | LoggerDebug _ => true | _ => false end.

(** How many calls of a list satisfy [p]. *)
Definition count_calls (p : Call → bool) (cs : list Call) : nat :=
  length (List.filter p cs).

(** The ten calls of a successful construction. *)
Definition init_ok_calls (joystick_id : Z) (name : string) : list Call :=
  init_prefix_calls joystick_id name ++
  [LoggerInfo "Running on Windows";
   JoystickGetNumaxes joystick_id; JoystickGetNumbuttons joystick_id;
   JoystickGetNumaxes joystick_id; JoystickGetNumbuttons joystick_id].

(** A controller whose left stick reads NaN horizontally and infinity
    vertically. *)
Definition nan_world : World :=
  sample_world "win32" "Xbox Series X Controller" 6 16
    (λ i, match i with 0 => nan | 1 => infinity | _ => 0%float end)
    (pressed_at []) (0, 0) 20.

(** The controller with only [SCREENSHOT] pressed. *)
Definition screenshot_only_world : World :=
  sample_world "win32" "Xbox Series X Controller" 6 16
    scenario_axis (pressed_at [11]) (0, 0) logging_DEBUG.

(** ** The monad: running a bind *)

Lemma bind_ok {T U : Type} (m : M T) (f : T → M U) (w w1 : World) (v : T) :
  m w = (Ok v, w1) → (m ≫= f) w = f v w1.
Proof. intros H. unfold mbind, M_bind. rewrite H. reflexivity. Qed.

Lemma bind_raise {T U : Type} (m : M T) (f : T → M U) (w w1 : World) (e : exn) :
  m w = (Raise e, w1) → (m ≫= f) w = (Raise e, w1).
Proof. intros H. unfold mbind, M_bind. rewrite H. reflexivity. Qed.

Lemma bind_ok_inv {T U : Type} (m : M T) (f : T → M U) (w w2 : World) (u : U) :
  (m ≫= f) w = (Ok u, w2) → ∃ v w1, m w = (Ok v, w1) ∧ f v w1 = (Ok u, w2).
Proof.
  unfold mbind, M_bind. destruct (m w) as [[v|e] w1]; intros H.
  - exists v, w1. split; [reflexivity | exact H].
  - discriminate H.
Qed.

Lemma add_calls_nil (w : World) : add_calls w [] = w.
Proof. destruct w as [p js l cs]. unfold add_calls; cbn. rewrite app_nil_r. reflexivity. Qed.

Lemma add_calls_app (w : World) (cs1 cs2 : list Call) :
  add_calls (add_calls w cs1) cs2 = add_calls w (cs1 ++ cs2).
Proof. unfold add_calls; cbn. rewrite app_assoc. reflexivity. Qed.

(** ** Reads never raise and leave only their call behind *)

Lemma joystick_get_axis_run (j i : Z) (w : World) :
  joystick_get_axis j i w =
  (Ok (raw_axis (joysticks w j) i), add_calls w [JoystickGetAxis j i]).
Proof. reflexivity. Qed.

Lemma joystick_get_button_run (j i : Z) (w : World) :
  joystick_get_button j i w =
  (Ok (raw_button (joysticks w j) i), add_calls w [JoystickGetButton j i]).
Proof. reflexivity. Qed.

Lemma joystick_get_hat_run (j i : Z) (w : World) :
  joystick_get_hat j i w =
  (Ok (raw_hat (joysticks w j) i), add_calls w [JoystickGetHat j i]).
Proof. reflexivity. Qed.

Lemma connector_get_events_run (w : World) :
  connector_get_events w = (Ok (), add_calls w [ConnectorGetEvents]).
Proof. reflexivity. Qed.

(** The comprehension over the button keys reads every key once, in the
    order of the list, and keeps the pressed ones. *)
Lemma comprehension_buttons {U : Type} (f : _ButtonKeys.t → U) (j : Z)
    (l : list _ButtonKeys.t) (w : World) :
  comprehension l (λ b, joystick_get_button j (_ButtonKeys.value b)) f w =
  (Ok (map f (List.filter (λ b, raw_button (joysticks w j) (_ButtonKeys.value b)) l)),
   add_calls w (map (λ b, JoystickGetButton j (_ButtonKeys.value b)) l)).
Proof.
  revert w; induction l as [|b l IH]; intros w.
  - cbn. rewrite add_calls_nil. reflexivity.
  - cbn [comprehension].
    erewrite bind_ok by apply joystick_get_button_run.
    erewrite bind_ok by apply IH.
    rewrite add_calls_app. cbn.
    destruct (raw_button _ _); reflexivity.
Qed.

(** Looking the values of keys up again gives the keys back. *)
Lemma _ButtonKeys_call_value (k : _ButtonKeys.t) (w : World) :
  _ButtonKeys_call (_ButtonKeys.value k) w = (Ok k, w).
Proof. destruct k; reflexivity. Qed.

Lemma map_M_button_values (ks : list _ButtonKeys.t) (w : World) :
  map_M _ButtonKeys_call (map _ButtonKeys.value ks) w = (Ok ks, w).
Proof.
  induction ks as [|k ks IH]; [reflexivity|].
  cbn [map map_M].
  erewrite bind_ok by apply _ButtonKeys_call_value.
  erewrite bind_ok by apply IH.
  reflexivity.
Qed.

(** What one call of [get_state] returns and what it does to the world. *)
Lemma get_state_run (self : WindowsXboxPyGameJoystick) (w : World) :
  let h := joysticks w (joystick self) in
  get_state self w =
  (Ok (snapshot (dead_zone self) h),
   add_calls w (poll_calls (joystick self)
                ++ debug_calls (effective_level w) (dead_zone self) h)).
Proof.
  intros h. unfold get_state.
  erewrite bind_ok by apply connector_get_events_run.
  do 6 (erewrite bind_ok by apply joystick_get_axis_run).
  do 11 (erewrite bind_ok by apply joystick_get_button_run).
  erewrite bind_ok by apply joystick_get_hat_run.
  erewrite bind_ok by apply comprehension_buttons.
  erewrite bind_ok by apply map_M_button_values.
  erewrite bind_ok by reflexivity.
  rewrite !add_calls_app.
  unfold debug_calls. cbn [effective_level add_calls].
  destruct (effective_level w =? logging_DEBUG).
  - erewrite bind_ok by reflexivity.
    change (?m ?x ?y = (Ok ?s, ?z)) with ((Ok x, y) = (Ok s, z)).
    f_equal. unfold add_calls; cbn [calls platform joysticks effective_level].
    f_equal. rewrite <- !app_assoc. reflexivity.
  - erewrite bind_ok by reflexivity. rewrite app_nil_r. reflexivity.
Qed.

(** ** Comparison of binary64 numbers *)

Lemma SFcompare_antisym (x y : spec_float) :
  SFcompare y x = option_map CompOpp (SFcompare x y).
Proof.
  destruct x as [sx|sx| |sx mx ex], y as [sy|sy| |sy my ey]; cbn;
    try (destruct sx); try (destruct sy); cbn; try reflexivity.
  - rewrite (Z.compare_antisym ey ex).
    destruct (ey ?= ex); cbn; try reflexivity.
    rewrite (Pos.compare_cont_antisym mx my Eq). reflexivity.
  - rewrite (Z.compare_antisym ey ex).
    destruct (ey ?= ex); cbn; try reflexivity.
    rewrite (Pos.compare_cont_antisym mx my Eq). reflexivity.
Qed.

(** [y <= x] excludes [x < y], also when a NaN is involved. *)
Lemma ltb_false_of_leb (x y : float) :
  (y <=? x)%float = true → (x <? y)%float = false.
Proof.
  rewrite leb_spec, ltb_spec. unfold SFleb, SFltb.
  rewrite (SFcompare_antisym (Prim2SF x) (Prim2SF y)).
  destruct (SFcompare (Prim2SF x) (Prim2SF y)) as [[| |]|]; cbn; congruence.
Qed.

(** ** The construction *)

Lemma init_unsupported_platform (joystick_id : Z) (w : World) :
  startswith (platform w) "win" = false →
  __init__ joystick_id w =
  (Raise (ValueError "This class is only supported on Windows systems"),
   add_calls w (init_prefix_calls joystick_id (raw_name (joysticks w joystick_id)))).
Proof.
  intros Hp. unfold __init__.
  do 6 (erewrite bind_ok by reflexivity).
  cbn [platform]. rewrite Hp. cbn [negb].
  unfold raise, add_calls, init_prefix_calls; cbn [calls platform joysticks effective_level].
  f_equal. f_equal. rewrite <- !app_assoc. reflexivity.
Qed.

Lemma init_wrong_name (joystick_id : Z) (w : World) :
  startswith (platform w) "win" = true →
  raw_name (joysticks w joystick_id) ≠ "Xbox Series X Controller" →
  __init__ joystick_id w =
  (Raise (ValueError ("Xbox controller not detected. Controller detected was "
                      +:+ raw_name (joysticks w joystick_id))),
   add_calls w (init_prefix_calls joystick_id (raw_name (joysticks w joystick_id))
                ++ [LoggerInfo "Running on Windows"])).
Proof.
  intros Hp Hn. unfold __init__.
  do 6 (erewrite bind_ok by reflexivity).
  cbn [platform]. rewrite Hp. cbn [negb].
  erewrite bind_ok by reflexivity.
  cbn [joysticks].
  apply String.eqb_neq in Hn. rewrite Hn. cbn [negb].
  erewrite bind_raise by reflexivity.
  unfold add_calls, init_prefix_calls; cbn [calls platform joysticks effective_level].
  f_equal. f_equal. rewrite <- !app_assoc. reflexivity.
Qed.


(** *** The table-building loops *)

Section LookupLoop.

Context {K S : Type}.
Variable lookup : Z → M K.
Variable upd : S → Z → K → S.
Hypothesis lookup_world : ∀ i w, snd (lookup i w) = w.

(** A loop of lookups makes no call. *)
Lemma for_each_lookup_world (l : list Z) (s : S) (w : World) :
  snd (for_each l (λ s i, k ← lookup i; mret (upd s i k)) s w) = w.
Proof.
  revert s; induction l as [|x l IH]; intros s; [reflexivity|].
  cbn [for_each].
  pose proof (lookup_world x w) as Hw.
  destruct (lookup x w) as [[k|e] w1] eqn:Hx; cbn in Hw; subst w1.
  - erewrite bind_ok; [apply IH|].
    erewrite bind_ok by exact Hx. reflexivity.
  - erewrite bind_raise; [reflexivity|].
    erewrite bind_raise by exact Hx. reflexivity.
Qed.

(** A loop of lookups raises as soon as the list holds an index whose
    lookup raises: nothing is skipped. *)
Lemma for_each_lookup_raise (l : list Z) (s : S) (w : World) (i : Z) :
  i ∈ l →
  (∃ e, lookup i w = (Raise e, w)) →
  ∃ e, for_each l (λ s i, k ← lookup i; mret (upd s i k)) s w = (Raise e, w).
Proof.
  intros Hi [e He]. revert s.
  induction l as [|x l IH]; intros s; [inversion Hi|].
  cbn [for_each].
  pose proof (lookup_world x w) as Hw.
  destruct (lookup x w) as [[k|e'] w1] eqn:Hx; cbn in Hw; subst w1.
  - apply elem_of_cons in Hi as [->|Hi]; [congruence|].
    destruct (IH Hi (upd s x k)) as [e'' IH'].
    exists e''. erewrite bind_ok; [exact IH'|].
    erewrite bind_ok by exact Hx. reflexivity.
  - exists e'. erewrite bind_raise; [reflexivity|].
    erewrite bind_raise by exact Hx. reflexivity.
Qed.

End LookupLoop.

Lemma _AxisKeys_call_world (i : Z) (w : World) : snd (_AxisKeys_call i w) = w.
Proof. unfold _AxisKeys_call. destruct (_AxisKeys.of_value i); reflexivity. Qed.

Lemma _ButtonKeys_call_world (i : Z) (w : World) : snd (_ButtonKeys_call i w) = w.
Proof. unfold _ButtonKeys_call. destruct (_ButtonKeys.of_value i); reflexivity. Qed.

Lemma _AxisKeys_call_raise (i : Z) (w : World) :
  _AxisKeys.of_value i = None → ∃ e, _AxisKeys_call i w = (Raise e, w).
Proof. intros H. unfold _AxisKeys_call. rewrite H. eexists. reflexivity. Qed.

Lemma _ButtonKeys_call_raise (i : Z) (w : World) :
  _ButtonKeys.of_value i = None → ∃ e, _ButtonKeys_call i w = (Raise e, w).
Proof. intros H. unfold _ButtonKeys_call. rewrite H. eexists. reflexivity. Qed.

(** Every exception of this module is a [ValueError]. *)
Lemma exn_is_ValueError (e : exn) : ∃ msg, e = ValueError msg.
Proof. destruct e as [msg]. exists msg. reflexivity. Qed.

(** The values the two enumerations know. *)
Lemma _AxisKeys_of_value_None (i : Z) :
  _AxisKeys.of_value i = None ↔ ¬ (0 ≤ i ≤ 5).
Proof.
  split.
  - intros H [H0 H5].
    assert (i = 0 ∨ i = 1 ∨ i = 2 ∨ i = 3 ∨ i = 4 ∨ i = 5) as Hi by lia.
    destruct Hi as [->|[->|[->|[->|[->| ->]]]]]; discriminate H.
  - intros H. destruct i as [|p|p]; [lia| |reflexivity].
    do 3 (destruct p as [p|p|]; try reflexivity; try lia).
Qed.

Lemma _ButtonKeys_of_value_None (i : Z) :
  _ButtonKeys.of_value i = None ↔ ¬ (0 ≤ i ≤ 9 ∨ i = 11).
Proof.
  split.
  - intros H [[H0 H9]| ->]; [|discriminate H].
    assert (i = 0 ∨ i = 1 ∨ i = 2 ∨ i = 3 ∨ i = 4 ∨ i = 5 ∨ i = 6 ∨ i = 7 ∨ i = 8 ∨ i = 9)
      as Hi by lia.
    destruct Hi as [->|[->|[->|[->|[->|[->|[->|[->|[->| ->]]]]]]]]]; discriminate H.
  - intros H. destruct i as [|p|p]; [lia| |reflexivity].
    do 4 (destruct p as [p|p|]; try reflexivity; try lia).
Qed.

(** On Windows and with the expected device name, the construction reaches
    the table-building loops after nine calls. *)
Lemma init_supported (joystick_id : Z) (w : World) :
  startswith (platform w) "win" = true →
  raw_name (joysticks w joystick_id) = "Xbox Series X Controller" →
  let h := joysticks w joystick_id in
  let w1 := add_calls w (init_prefix_calls joystick_id (raw_name h)
                         ++ [LoggerInfo "Running on Windows";
                             JoystickGetNumaxes joystick_id;
                             JoystickGetNumbuttons joystick_id;
                             JoystickGetNumaxes joystick_id]) in
  __init__ joystick_id w =
  (axis_ids ← for_each (range (raw_numaxes h))
                (λ axis_ids i, k ← _AxisKeys_call i; mret (<[i:=k]> axis_ids)) ∅;
   numbuttons ← joystick_get_numbuttons joystick_id;
   button_ids ← for_each (filter (λ x, x ∉ VOID_BUTTONS) (range numbuttons))
                  (λ button_ids i, k ← _ButtonKeys_call i; mret (<[i:=k]> button_ids)) ∅;
   mret (mkWindowsXboxPyGameJoystick joystick_id
           (list_repeat 0%float (raw_numaxes h)) (list_repeat false (raw_numbuttons h))
           axis_ids button_ids 0.07%float)) w1.
Proof.
  intros Hp Hn h w1. subst h w1. unfold __init__.
  do 6 (erewrite bind_ok by reflexivity).
  cbn [platform]. rewrite Hp. cbn [negb].
  erewrite bind_ok by reflexivity.
  cbn [joysticks]. rewrite Hn. cbn [String.eqb negb].
  erewrite bind_ok by reflexivity.
  do 3 (erewrite bind_ok by reflexivity).
  cbn [joysticks].
  match goal with
  | |- _ ?W = _ ?W1 => assert (W = W1) as ->
  end; [|reflexivity].
  unfold add_calls, init_prefix_calls.
  cbn [calls platform joysticks effective_level].
  f_equal. rewrite <- !app_assoc. reflexivity.
Qed.

(** What a successful construction tells about the adapter and the world:
    the platform and the device name passed the checks, the adapter polls
    the joystick it was built for, and its dead zone is 0.07. *)
Lemma init_ok_inv (joystick_id : Z) (w w' : World) (self : WindowsXboxPyGameJoystick) :
  __init__ joystick_id w = (Ok self, w') →
  startswith (platform w) "win" = true ∧
  raw_name (joysticks w joystick_id) = "Xbox Series X Controller" ∧
  joystick self = joystick_id ∧
  dead_zone self = 0.07%float.
Proof.
  intros H.
  destruct (startswith (platform w) "win") eqn:Hp;
    [|rewrite init_unsupported_platform in H by exact Hp; discriminate H].
  destruct (String.eqb_spec (raw_name (joysticks w joystick_id)) "Xbox Series X Controller")
    as [Hn|Hn];
    [|rewrite init_wrong_name in H by assumption; discriminate H].
  rewrite init_supported in H by assumption. cbv zeta in H.
  apply bind_ok_inv in H as (axis_ids & w1 & _ & H).
  apply bind_ok_inv in H as (numbuttons & w2 & _ & H).
  apply bind_ok_inv in H as (button_ids & w3 & _ & H).
  injection H as <- _. auto.
Qed.

(** The construction on the two sample controllers, and one poll. *)
Example init_xbox_world :
  __init__ 0 xbox_world =
  (Ok sample_adapter,
   add_calls xbox_world
     [ConnectorInitJoystick; ConnectorCreateJoystick 0; JoystickInit 0;
      JoystickGetName 0;
      LoggerInfo "detected joystick device: Xbox Series X Controller";
      LoggerInfo "Running on Windows";
      JoystickGetNumaxes 0; JoystickGetNumbuttons 0;
      JoystickGetNumaxes 0; JoystickGetNumbuttons 0]).
Proof. vm_compute. reflexivity. Qed.

Example init_small_world : fst (__init__ 0 small_world) = Ok small_adapter.
Proof. vm_compute. reflexivity. Qed.

Example get_state_xbox_world :
  fst (get_state sample_adapter xbox_world) =
  Ok (mkControllerState
        (mkControllerAxesState (mkStickState 0 (-0.5)) (mkStickState 0 0.9) 0 0.2)
        (_ButtonPressedState.mk true false true false false false false false
                                false false false)
        (mkControllerDPadState 1 (-1))).
Proof. vm_compute. reflexivity. Qed.

Lemma prefix_refl (s : string) : String.prefix s s = true.
Proof.
  induction s as [|c s IH]; [reflexivity|].
  cbn. destruct (Ascii.ascii_dec c c); [exact IH | congruence].
Qed.

(** A string contains each of its suffixes. *)
Lemma str_contains_suffix (pre s : string) : str_contains (pre +:+ s) s = true.
Proof.
  induction pre as [|c pre IH].
  - change ("" +:+ s) with s.
    destruct s; cbn [str_contains]; rewrite prefix_refl; reflexivity.
  - change (String c pre +:+ s) with (String c (pre +:+ s)).
    cbn [str_contains]. rewrite IH. apply orb_true_r.
Qed.

(** ** Construction failures *)

(** C3: for every raw handle whose device name is not the expected model
    string "Xbox Series X Controller", the construction raises (a
    [ValueError], the configuration error of the specification) and returns
    no adapter: the adapter never becomes ready. *)
Theorem init_rejects_other_device (joystick_id : Z) (w : World) :
  raw_name (joysticks w joystick_id) ≠ "Xbox Series X Controller" →
  (∃ msg w', __init__ joystick_id w = (Raise (ValueError msg), w')) ∧
  (∀ self w', __init__ joystick_id w ≠ (Ok self, w')).
Proof.
  intros Hn.
  destruct (startswith (platform w) "win") eqn:Hp.
  - rewrite init_wrong_name by assumption.
    split; [eexists _, _; reflexivity | intros self w'; discriminate].
  - rewrite init_unsupported_platform by assumption.
    split; [eexists _, _; reflexivity | intros self w'; discriminate].
Qed.

Lemma init_rejects_other_device_witness :
  (∃ msg w', __init__ 0 other_pad_world = (Raise (ValueError msg), w')) ∧
  (∀ self w', __init__ 0 other_pad_world ≠ (Ok self, w')).
Proof.
  apply (init_rejects_other_device 0 other_pad_world).
  vm_compute. discriminate.
Defined.

(** C4: when the reported axis count or button count covers an index that is
    not void and that the key enumeration does not know (an axis index
    outside 0..5; a button index outside [VOID_BUTTONS] and outside the
    button keys), the construction raises a [ValueError]; the index is not
    skipped. *)
Theorem init_rejects_unmapped_index (joystick_id : Z) (w : World) :
  let h := joysticks w joystick_id in
  (∃ i, 0 ≤ i < raw_numaxes h ∧ _AxisKeys.of_value i = None) ∨
  (∃ i, 0 ≤ i < raw_numbuttons h ∧ (i ∉ VOID_BUTTONS) ∧ _ButtonKeys.of_value i = None) →
  ∃ msg w', __init__ joystick_id w = (Raise (ValueError msg), w').
Proof.
  intros h Hbad.
  destruct (startswith (platform w) "win") eqn:Hp;
    [|rewrite init_unsupported_platform by exact Hp; eexists _, _; reflexivity].
  destruct (String.eqb_spec (raw_name (joysticks w joystick_id)) "Xbox Series X Controller")
    as [Hn|Hn];
    [|rewrite init_wrong_name by assumption; eexists _, _; reflexivity].
  rewrite init_supported by assumption. cbv zeta. fold h.
  set (w1 := add_calls w _).
  assert (∀ e (w' : World),
            ∃ msg w'', (Raise e : result WindowsXboxPyGameJoystick, w')
                       = (Raise (ValueError msg), w''))
    as Hraise.
  { intros e w'. destruct (exn_is_ValueError e) as [msg ->]. eexists _, _; reflexivity. }
  pose proof (for_each_lookup_world _AxisKeys_call (λ s i k, <[i:=k]> s)
                _AxisKeys_call_world (range (raw_numaxes h))
                (∅ : gmap Z _AxisKeys.t) w1) as Hw1.
  cbv beta in Hw1.
  destruct Hbad as [(i & Hi & Hnone)|(i & Hi & Hvoid & Hnone)].
  - destruct (for_each_lookup_raise _AxisKeys_call (λ s i k, <[i:=k]> s)
                _AxisKeys_call_world (range (raw_numaxes h))
                (∅ : gmap Z _AxisKeys.t) w1 i) as [e He].
    + apply elem_of_seqZ. lia.
    + apply _AxisKeys_call_raise. exact Hnone.
    + erewrite bind_raise by exact He. apply Hraise.
  - destruct (for_each (range (raw_numaxes h)) _ ∅ w1) as [[axis_ids|e] w2] eqn:Haxis;
      cbn in Hw1; subst w2.
    2:{ erewrite bind_raise by exact Haxis. apply Hraise. }
    erewrite bind_ok by exact Haxis.
    erewrite bind_ok by reflexivity.
    match goal with |- context [mbind _ (for_each _ _ _) ?W] => set (w2 := W) end.
    destruct (for_each_lookup_raise _ButtonKeys_call (λ s i k, <[i:=k]> s)
                _ButtonKeys_call_world
                (filter (λ x, x ∉ VOID_BUTTONS) (range (raw_numbuttons h)))
                (∅ : gmap Z _ButtonKeys.t) w2 i) as [e He].
    + apply list_elem_of_filter. split; [exact Hvoid|]. apply elem_of_seqZ. lia.
    + apply _ButtonKeys_call_raise. exact Hnone.
    + erewrite bind_raise by exact He. apply Hraise.
Qed.

Lemma init_rejects_unmapped_index_witness :
  (∃ msg w', __init__ 0 seven_axes_world = (Raise (ValueError msg), w')) ∧
  (∃ msg w', __init__ 0 seventeen_buttons_world = (Raise (ValueError msg), w')).
Proof.
  split.
  - apply (init_rejects_unmapped_index 0 seven_axes_world).
    left. exists 6. vm_compute. intuition discriminate.
  - apply (init_rejects_unmapped_index 0 seventeen_buttons_world).
    right. exists 16. split; [vm_compute; intuition discriminate|].
    split; [|reflexivity].
    unfold VOID_BUTTONS. rewrite !elem_of_cons, elem_of_nil. lia.
Defined.

(** C9, as the specification states it, fails on an unsupported platform:
    on a Linux system the construction raises the fixed message "This class
    is only supported on Windows systems", which contains neither the
    detected platform ("linux") nor the detected device name. *)
Lemma init_platform_message_counterexample :
  startswith (platform linux_world) "win" = false ∧
  ∃ msg w',
    __init__ 0 linux_world = (Raise (ValueError msg), w') ∧
    str_contains msg (platform linux_world) = false ∧
    str_contains msg (raw_name (joysticks linux_world 0)) = false.
Proof.
  split; [reflexivity|].
  exists "This class is only supported on Windows systems".
  eexists. split; [vm_compute; reflexivity|].
  split; vm_compute; reflexivity.
Qed.

(** C9 (amended): on a device identity mismatch (the platform is Windows,
    the name is not the expected one) the error message contains the
    detected device name; on an unsupported platform the message is the
    fixed text "This class is only supported on Windows systems", and the
    detected device name has been logged at level INFO before. *)
Theorem init_failure_message (joystick_id : Z) (w : World) :
  let name := raw_name (joysticks w joystick_id) in
  (startswith (platform w) "win" = true →
   name ≠ "Xbox Series X Controller" →
   ∃ msg w',
     __init__ joystick_id w = (Raise (ValueError msg), w') ∧
     str_contains msg name = true) ∧
  (startswith (platform w) "win" = false →
   ∃ w',
     __init__ joystick_id w =
       (Raise (ValueError "This class is only supported on Windows systems"), w') ∧
     LoggerInfo ("detected joystick device: " +:+ name) ∈ calls w').
Proof.
  intros name. split.
  - intros Hp Hn. rewrite init_wrong_name by assumption.
    eexists _, _. split; [reflexivity|]. apply str_contains_suffix.
  - intros Hp. rewrite init_unsupported_platform by assumption.
    eexists. split; [reflexivity|].
    unfold add_calls, init_prefix_calls; cbn [calls].
    rewrite elem_of_app. right. rewrite !elem_of_cons. auto 10.
Qed.

Lemma init_failure_message_witness :
  (∃ msg w',
     __init__ 0 other_pad_world = (Raise (ValueError msg), w') ∧
     str_contains msg "Generic USB Joystick" = true) ∧
  (∃ w',
     __init__ 0 linux_world =
       (Raise (ValueError "This class is only supported on Windows systems"), w') ∧
     LoggerInfo "detected joystick device: Xbox Series X Controller" ∈ calls w').
Proof.
  split.
  - apply (init_failure_message 0 other_pad_world); [reflexivity | vm_compute; discriminate].
  - apply (init_failure_message 0 linux_world). reflexivity.
Defined.

(** ** Polling *)

(** C1: on a ready adapter (threshold 0.07), for each of the six analog
    channels, the value [get_state] returns for the channel is exactly 0.0
    when the reading r of the channel's axis satisfies abs(r) < 0.07, and is
    r itself when abs(r) >= 0.07. *)
Theorem dead_zone_normalization (joystick_id : Z) (w0 w1 w : World)
    (self : WindowsXboxPyGameJoystick) (k : _AxisKeys.t) :
  __init__ joystick_id w0 = (Ok self, w1) →
  let r := raw_axis (joysticks w (joystick self)) (_AxisKeys.value k) in
  ∃ st w',
    get_state self w = (Ok st, w') ∧
    ((abs r <? 0.07)%float = true → channel k (axes st) = 0%float) ∧
    ((0.07 <=? abs r)%float = true → channel k (axes st) = r).
Proof.
  intros Hinit r. apply init_ok_inv in Hinit as (_ & _ & _ & Hdz).
  rewrite get_state_run. cbv zeta. rewrite Hdz.
  eexists _, _. split; [reflexivity|].
  subst r. split; intros Hc.
  - destruct k; cbn in Hc |- *; rewrite Hc; reflexivity.
  - apply ltb_false_of_leb in Hc.
    destruct k; cbn in Hc |- *; rewrite Hc; reflexivity.
Qed.

Lemma dead_zone_normalization_witness :
  (∃ st w',
     get_state sample_adapter xbox_world = (Ok st, w') ∧
     ((abs 0.03 <? 0.07)%float = true →
      channel _AxisKeys.LEFT_STICK_HORIZONTAL (axes st) = 0%float) ∧
     ((0.07 <=? abs 0.03)%float = true →
      channel _AxisKeys.LEFT_STICK_HORIZONTAL (axes st) = 0.03%float)) ∧
  (∃ st w',
     get_state sample_adapter xbox_world = (Ok st, w') ∧
     ((abs (-0.5) <? 0.07)%float = true →
      channel _AxisKeys.LEFT_STICK_VERTICAL (axes st) = 0%float) ∧
     ((0.07 <=? abs (-0.5))%float = true →
      channel _AxisKeys.LEFT_STICK_VERTICAL (axes st) = (-0.5)%float)).
Proof.
  split.
  - apply (dead_zone_normalization 0 xbox_world (snd (__init__ 0 xbox_world)) xbox_world
             sample_adapter _AxisKeys.LEFT_STICK_HORIZONTAL).
    vm_compute. reflexivity.
  - apply (dead_zone_normalization 0 xbox_world (snd (__init__ 0 xbox_world)) xbox_world
             sample_adapter _AxisKeys.LEFT_STICK_VERTICAL).
    vm_compute. reflexivity.
Defined.

(** C2: if the handle answers the axes 0..5 with 0.03, -0.5, 0.02, 0.9, 0.0
    and 0.2, then [get_state] on a ready adapter returns the axes state with
    left stick (0.0, -0.5), right stick (0.0, 0.9), left trigger 0.0 and
    right trigger 0.2. *)
Theorem end_to_end_scenario (joystick_id : Z) (w0 w1 w : World)
    (self : WindowsXboxPyGameJoystick) :
  __init__ joystick_id w0 = (Ok self, w1) →
  let h := joysticks w (joystick self) in
  raw_axis h 0 = 0.03%float →
  raw_axis h 1 = (-0.5)%float →
  raw_axis h 2 = 0.02%float →
  raw_axis h 3 = 0.9%float →
  raw_axis h 4 = 0.0%float →
  raw_axis h 5 = 0.2%float →
  ∃ st w',
    get_state self w = (Ok st, w') ∧
    axes st = mkControllerAxesState
                (mkStickState 0.0 (-0.5)) (mkStickState 0.0 0.9) 0.0 0.2.
Proof.
  intros Hinit h H0 H1 H2 H3 H4 H5.
  apply init_ok_inv in Hinit as (_ & _ & _ & Hdz).
  rewrite get_state_run. cbv zeta. fold h. rewrite Hdz.
  eexists _, _. split; [reflexivity|].
  unfold snapshot. cbn [axes]. rewrite H0, H1, H2, H3, H4, H5.
  vm_compute. reflexivity.
Qed.

Lemma end_to_end_scenario_witness :
  ∃ st w',
    get_state sample_adapter xbox_world = (Ok st, w') ∧
    axes st = mkControllerAxesState
                (mkStickState 0.0 (-0.5)) (mkStickState 0.0 0.9) 0.0 0.2.
Proof.
  apply (end_to_end_scenario 0 xbox_world (snd (__init__ 0 xbox_world)) xbox_world
           sample_adapter); reflexivity.
Defined.

(** C6: whatever pair (h, v) the handle answers for hat 0, [get_state]
    returns the d-pad state with horizontal = h and vertical = v, for every
    adapter and so for every dead zone: no d-pad value is ever replaced by
    zero.  In particular the hat (1, -1) gives horizontal 1, vertical -1. *)
Theorem d_pad_passes_through (self : WindowsXboxPyGameJoystick) (w : World) (h v : Z) :
  raw_hat (joysticks w (joystick self)) 0 = (h, v) →
  ∃ st w',
    get_state self w = (Ok st, w') ∧
    d_pad st = mkControllerDPadState h v.
Proof.
  intros Hhat. rewrite get_state_run. cbv zeta.
  eexists _, _. split; [reflexivity|].
  unfold snapshot. cbn [d_pad]. rewrite Hhat. reflexivity.
Qed.

Lemma d_pad_passes_through_witness :
  ∃ st w',
    get_state sample_adapter xbox_world = (Ok st, w') ∧
    d_pad st = mkControllerDPadState 1 (-1).
Proof.
  apply (d_pad_passes_through sample_adapter xbox_world 1 (-1)).
  reflexivity.
Defined.

(** *** The snapshot depends on the mapped readings only *)

Lemma same_readings_mapped (h1 h2 : RawHandle) :
  same_readings h1 h2 → same_mapped_readings h1 h2.
Proof.
  intros (Ha & Hb & Hh). split; [|split].
  - intros k. apply Ha.
  - intros k. apply Hb.
  - apply Hh.
Qed.

Lemma snapshot_ext (dz : float) (h1 h2 : RawHandle) :
  same_mapped_readings h1 h2 → snapshot dz h1 = snapshot dz h2.
Proof.
  intros (Ha & Hb & Hh). unfold snapshot.
  pose proof (Ha _AxisKeys.LEFT_STICK_HORIZONTAL) as A0.
  pose proof (Ha _AxisKeys.LEFT_STICK_VERTICAL) as A1.
  pose proof (Ha _AxisKeys.RIGHT_STICK_HORIZONTAL) as A2.
  pose proof (Ha _AxisKeys.RIGHT_STICK_VERTICAL) as A3.
  pose proof (Ha _AxisKeys.LEFT_ANALOG_TRIGGER) as A4.
  pose proof (Ha _AxisKeys.RIGHT_ANALOG_TRIGGER) as A5.
  cbn in A0, A1, A2, A3, A4, A5. rewrite A0, A1, A2, A3, A4, A5, Hh.
  pose proof (Hb _ButtonKeys.A) as B0. pose proof (Hb _ButtonKeys.B) as B1.
  pose proof (Hb _ButtonKeys.X) as B2. pose proof (Hb _ButtonKeys.Y) as B3.
  pose proof (Hb _ButtonKeys.LB) as B4. pose proof (Hb _ButtonKeys.RB) as B5.
  pose proof (Hb _ButtonKeys.VIEW) as B6. pose proof (Hb _ButtonKeys.MENU) as B7.
  pose proof (Hb _ButtonKeys.LEFT_STICK) as B8.
  pose proof (Hb _ButtonKeys.RIGHT_STICK) as B9.
  pose proof (Hb _ButtonKeys.SCREENSHOT) as B11.
  cbn in B0, B1, B2, B3, B4, B5, B6, B7, B8, B9, B11.
  rewrite B0, B1, B2, B3, B4, B5, B6, B7, B8, B9, B11.
  reflexivity.
Qed.

(** C7: with the readings of the handle unchanged between two successive
    calls of [get_state] on the same adapter (the second call starts in any
    world whose handle answers as it did when the first call returned), both
    calls return, and they return equal snapshots. *)
Theorem get_state_repeatable (self : WindowsXboxPyGameJoystick) (w w2 : World) :
  same_readings (joysticks (snd (get_state self w)) (joystick self))
                (joysticks w2 (joystick self)) →
  ∃ st, fst (get_state self w) = Ok st ∧ fst (get_state self w2) = Ok st.
Proof.
  rewrite !get_state_run. cbn [fst snd add_calls joysticks]. intros Hsame.
  eexists. split; [reflexivity|].
  f_equal. symmetry. apply snapshot_ext, same_readings_mapped, Hsame.
Qed.

Lemma get_state_repeatable_witness :
  ∃ st,
    fst (get_state sample_adapter xbox_world) = Ok st ∧
    fst (get_state sample_adapter (snd (get_state sample_adapter xbox_world))) = Ok st.
Proof.
  apply (get_state_repeatable sample_adapter xbox_world
           (snd (get_state sample_adapter xbox_world))).
  repeat split.
Defined.

(** C10: two ready adapters whose handles answer alike at the indices of
    the key enumerations and at hat 0 return equal snapshots, whatever
    their tables [axis_ids], [button_ids], [axis_states], [button_states]
    and the counts their devices reported. *)
Theorem snapshot_independent_of_tables
    (id1 id2 : Z) (u1 u1' u2 u2' w1 w2 : World) (a1 a2 : WindowsXboxPyGameJoystick) :
  __init__ id1 u1 = (Ok a1, u1') →
  __init__ id2 u2 = (Ok a2, u2') →
  same_mapped_readings (joysticks w1 (joystick a1)) (joysticks w2 (joystick a2)) →
  ∃ st, fst (get_state a1 w1) = Ok st ∧ fst (get_state a2 w2) = Ok st.
Proof.
  intros H1 H2 Hsame.
  apply init_ok_inv in H1 as (_ & _ & _ & Hdz1).
  apply init_ok_inv in H2 as (_ & _ & _ & Hdz2).
  rewrite !get_state_run. cbn [fst]. rewrite Hdz1, Hdz2.
  eexists. split; [reflexivity|].
  f_equal. symmetry. apply snapshot_ext, Hsame.
Qed.

Lemma snapshot_independent_of_tables_witness :
  axis_ids sample_adapter ≠ axis_ids small_adapter ∧
  button_ids sample_adapter ≠ button_ids small_adapter ∧
  ∃ st,
    fst (get_state sample_adapter xbox_world) = Ok st ∧
    fst (get_state small_adapter small_world) = Ok st.
Proof.
  split; [|split].
  - intros E. apply (f_equal (λ m, m !! 5)) in E. vm_compute in E. discriminate E.
  - intros E. apply (f_equal (λ m, m !! 11)) in E. vm_compute in E. discriminate E.
  - apply (snapshot_independent_of_tables 0 0
             xbox_world (snd (__init__ 0 xbox_world))
             small_world (snd (__init__ 0 small_world))
             xbox_world small_world sample_adapter small_adapter).
    + vm_compute. reflexivity.
    + vm_compute. reflexivity.
    + repeat split.
Defined.

(** Walk down a literal list of calls to the call looked for. *)
Ltac find_call :=
  unfold poll_calls; cbn [tail];
  repeat first [apply list_elem_of_here | apply list_elem_of_further].

(** C8: every call of [get_state] calls the connector's event pump exactly
    once, before anything else, then reads every axis of [_AxisKeys], every
    button of [_ButtonKeys] and hat 0 from the handle; the snapshot it
    returns is made of the answers of this call (nothing is cached). *)
Theorem get_state_pumps_once_and_rereads (self : WindowsXboxPyGameJoystick) (w : World) :
  let j := joystick self in
  let h := joysticks w j in
  ∃ st w' reads,
    get_state self w = (Ok st, w') ∧
    calls w' = (calls w ++ ConnectorGetEvents :: reads)%list ∧
    (ConnectorGetEvents ∉ reads) ∧
    (∀ k, JoystickGetAxis j (_AxisKeys.value k) ∈ reads) ∧
    (∀ k, JoystickGetButton j (_ButtonKeys.value k) ∈ reads) ∧
    JoystickGetHat j 0 ∈ reads ∧
    (∀ k, channel k (axes st) =
          if (abs (raw_axis h (_AxisKeys.value k)) <? dead_zone self)%float
          then 0%float else raw_axis h (_AxisKeys.value k)) ∧
    (∀ k, pressed (buttons st) k = raw_button h (_ButtonKeys.value k)) ∧
    d_pad st = mkControllerDPadState (fst (raw_hat h 0)) (snd (raw_hat h 0)).
Proof.
  intros j h. rewrite get_state_run. cbv zeta. fold j h.
  eexists _, _,
    (tail (poll_calls j) ++ debug_calls (effective_level w) (dead_zone self) h)%list.
  split; [reflexivity|].
  split; [reflexivity|].
  split.
  { rewrite not_elem_of_app. split.
    - cbn. rewrite !not_elem_of_cons. repeat split; try discriminate. apply not_elem_of_nil.
    - unfold debug_calls. destruct (effective_level w =? logging_DEBUG).
      + rewrite !not_elem_of_cons. repeat split; try discriminate. apply not_elem_of_nil.
      + apply not_elem_of_nil. }
  split.
  { intros k. apply elem_of_app. left. destruct k; find_call. }
  split.
  { intros k. apply elem_of_app. left. destruct k; find_call. }
  split.
  { apply elem_of_app. left. find_call. }
  split; [intros k; destruct k; reflexivity|].
  split; [intros k; destruct k; reflexivity|].
  reflexivity.
Qed.

(** ** The pressed buttons *)

Lemma fields_as_keys :
  _ButtonPressedState.fields =
  map (λ k, (_ButtonKeys.name k, λ b, pressed b k)) field_keys.
Proof. reflexivity. Qed.

(** The names [get_pressed_buttons] returns are the names of the pressed
    keys, taken in the order of the fields. *)
Lemma get_pressed_buttons_keys (b : _ButtonPressedState.t) :
  _ButtonPressedState.get_pressed_buttons b =
  map _ButtonKeys.name (List.filter (pressed b) field_keys).
Proof.
  unfold _ButtonPressedState.get_pressed_buttons. rewrite fields_as_keys.
  induction field_keys as [|k l IH]; [reflexivity|].
  cbn. destruct (pressed b k); cbn; rewrite IH; reflexivity.
Qed.

Lemma snapshot_pressed (dz : float) (h : RawHandle) (k : _ButtonKeys.t) :
  pressed (buttons (snapshot dz h)) k = raw_button h (_ButtonKeys.value k).
Proof. destruct k; reflexivity. Qed.

(** Selecting from a list that is in order leaves a list in order. *)
Lemma ordered_by_filter {T : Type} (nm : T → string) (p : T → bool)
    (order : list string) (l : list T) :
  ordered_by order (map nm l) → ordered_by order (map nm (List.filter p l)).
Proof.
  unfold ordered_by. induction l as [|x l IH]; cbn; [auto|].
  intros Hs. apply StronglySorted_inv in Hs as [Hs Hall].
  destruct (p x); cbn; [|auto].
  constructor; [auto|].
  rewrite Forall_forall in Hall |- *. intros s Hin. apply Hall.
  apply list_elem_of_fmap in Hin as (y & -> & Hy).
  apply list_elem_of_fmap. exists y. split; [reflexivity|].
  apply list_elem_of_In. apply list_elem_of_In in Hy.
  apply filter_In in Hy. tauto.
Qed.

Lemma key_order_ordered : ordered_by key_order key_order.
Proof. apply (bool_decide_unpack _). vm_compute. exact I. Qed.

Lemma field_order_ordered : ordered_by field_order field_order.
Proof. apply (bool_decide_unpack _). vm_compute. exact I. Qed.

(** C5, as the specification states it, fails for the list
    [get_pressed_buttons] returns: with [SCREENSHOT] and [LEFT_STICK]
    pressed the returned list is ["SCREENSHOT"; "LEFT_STICK"], which is not
    in the declaration order of [_ButtonKeys] (there [LEFT_STICK] comes
    before [SCREENSHOT]). *)
Lemma pressed_order_counterexample :
  ∃ st w',
    get_state sample_adapter screenshot_world = (Ok st, w') ∧
    _ButtonPressedState.get_pressed_buttons (buttons st) = ["SCREENSHOT"; "LEFT_STICK"] ∧
    ¬ ordered_by key_order (_ButtonPressedState.get_pressed_buttons (buttons st)) ∧
    ordered_by key_order ["LEFT_STICK"; "SCREENSHOT"].
Proof.
  eexists _, _. split; [vm_compute; reflexivity|].
  split; [reflexivity|].
  split.
  - intros H. apply StronglySorted_inv in H as [_ H].
    apply Forall_inv in H. vm_compute in H. lia.
  - apply (bool_decide_unpack _). vm_compute. exact I.
Qed.

(** C5 (amended): the list [get_pressed_buttons] returns on the snapshot
    holds the names of the pressed buttons in the declaration order of the
    fields of [_ButtonPressedState] (A, B, X, Y, LB, RB, VIEW, MENU,
    SCREENSHOT, LEFT_STICK, RIGHT_STICK); the list [get_state] computes from
    [_ButtonKeys], which it logs at level DEBUG, holds them in the
    declaration order of [_ButtonKeys].  Both are functions of the pressed
    state alone, and both are ["A"; "X"] when exactly A and X are
    pressed. *)
Theorem pressed_buttons_order (self : WindowsXboxPyGameJoystick) (w : World) :
  let h := joysticks w (joystick self) in
  let is_pressed k := raw_button h (_ButtonKeys.value k) in
  let by_keys := map _ButtonKeys.name (List.filter is_pressed _ButtonKeys.members) in
  let by_fields := map _ButtonKeys.name (List.filter is_pressed field_keys) in
  ∃ st w',
    get_state self w = (Ok st, w') ∧
    _ButtonPressedState.get_pressed_buttons (buttons st) = by_fields ∧
    ordered_by field_order by_fields ∧
    ordered_by key_order by_keys ∧
    (effective_level w = logging_DEBUG →
     last_call w' = Some (LoggerDebug (DebugPressedButtons by_keys))) ∧
    ((∀ k, is_pressed k = true ↔ k = _ButtonKeys.A ∨ k = _ButtonKeys.X) →
     by_fields = ["A"; "X"] ∧ by_keys = ["A"; "X"]).
Proof.
  intros h is_pressed by_keys by_fields.
  rewrite get_state_run. cbv zeta. fold h.
  eexists _, _. split; [reflexivity|].
  split.
  { rewrite get_pressed_buttons_keys. reflexivity. }
  split; [apply ordered_by_filter, field_order_ordered|].
  split; [apply ordered_by_filter, key_order_ordered|].
  split.
  - intros Hlevel. unfold last_call, add_calls, debug_calls; cbn [calls].
    rewrite Hlevel, Z.eqb_refl, !last_app. reflexivity.
  - intros HAX.
    assert (∀ k, is_pressed k =
                 match k with _ButtonKeys.A | _ButtonKeys.X => true | _ => false end) as Hk.
    { intros k. specialize (HAX k). destruct (is_pressed k).
      - destruct HAX as [HAX _]. destruct (HAX eq_refl) as [-> | ->]; reflexivity.
      - destruct k; try reflexivity; destruct HAX as [_ HAX]; apply HAX; auto. }
    subst by_fields by_keys. unfold field_keys, _ButtonKeys.members.
    cbn [List.filter]. rewrite !Hk. split; reflexivity.
Qed.

(** * Further properties of the module *)

(** ** The enumerations and the void buttons *)

Lemma _AxisKeys_of_value_Some (i : Z) (k : _AxisKeys.t) :
  _AxisKeys.of_value i = Some k ↔ _AxisKeys.value k = i.
Proof.
  split; [|intros <-; destruct k; reflexivity].
  intros H. destruct (decide (0 ≤ i ≤ 5)) as [Hi|Hi].
  - assert (i = 0 ∨ i = 1 ∨ i = 2 ∨ i = 3 ∨ i = 4 ∨ i = 5) as Hc by lia.
    destruct Hc as [->|[->|[->|[->|[->| ->]]]]]; injection H as <-; reflexivity.
  - apply _AxisKeys_of_value_None in Hi. congruence.
Qed.

Lemma _ButtonKeys_of_value_Some (i : Z) (k : _ButtonKeys.t) :
  _ButtonKeys.of_value i = Some k ↔ _ButtonKeys.value k = i.
Proof.
  split; [|intros <-; destruct k; reflexivity].
  intros H. destruct (decide (0 ≤ i ≤ 9 ∨ i = 11)) as [Hi|Hi].
  - assert (i = 0 ∨ i = 1 ∨ i = 2 ∨ i = 3 ∨ i = 4 ∨ i = 5 ∨ i = 6 ∨ i = 7 ∨ i = 8 ∨
            i = 9 ∨ i = 11) as Hc by lia.
    destruct Hc as [->|[->|[->|[->|[->|[->|[->|[->|[->|[->| ->]]]]]]]]]];
      injection H as <-; reflexivity.
  - apply _ButtonKeys_of_value_None in Hi. congruence.
Qed.

(** X1: in both key enumerations, looking a member's value up gives the
    member back, and a successful lookup returns a member with the value
    looked up; so no two members share a value. *)
Theorem enum_value_round_trip :
  (∀ k, _AxisKeys.of_value (_AxisKeys.value k) = Some k) ∧
  (∀ i k, _AxisKeys.of_value i = Some k → _AxisKeys.value k = i) ∧
  (∀ k1 k2, _AxisKeys.value k1 = _AxisKeys.value k2 → k1 = k2) ∧
  (∀ k, _ButtonKeys.of_value (_ButtonKeys.value k) = Some k) ∧
  (∀ i k, _ButtonKeys.of_value i = Some k → _ButtonKeys.value k = i) ∧
  (∀ k1 k2, _ButtonKeys.value k1 = _ButtonKeys.value k2 → k1 = k2).
Proof.
  split; [intros k; apply _AxisKeys_of_value_Some; reflexivity|].
  split; [intros i k; apply _AxisKeys_of_value_Some|].
  split.
  { intros k1 k2 H. apply _AxisKeys_of_value_Some in H.
    rewrite (proj2 (_AxisKeys_of_value_Some _ k2) eq_refl) in H. congruence. }
  split; [intros k; apply _ButtonKeys_of_value_Some; reflexivity|].
  split; [intros i k; apply _ButtonKeys_of_value_Some|].
  intros k1 k2 H. apply _ButtonKeys_of_value_Some in H.
  rewrite (proj2 (_ButtonKeys_of_value_Some _ k2) eq_refl) in H. congruence.
Qed.

Lemma void_or_key (i : Z) :
  (i ∈ VOID_BUTTONS ∨ is_Some (_ButtonKeys.of_value i) ↔ 0 ≤ i ≤ 15) ∧
  ¬ (i ∈ VOID_BUTTONS ∧ is_Some (_ButtonKeys.of_value i)).
Proof.
  assert (i ∈ VOID_BUTTONS ↔ i = 10 ∨ 12 ≤ i ≤ 15) as Hvoid.
  { unfold VOID_BUTTONS. rewrite !elem_of_cons, elem_of_nil. lia. }
  assert (is_Some (_ButtonKeys.of_value i) ↔ (0 ≤ i ≤ 9 ∨ i = 11)) as Hkey.
  { rewrite <- not_eq_None_Some, _ButtonKeys_of_value_None.
    destruct (decide (0 ≤ i ≤ 9 ∨ i = 11)); tauto. }
  rewrite Hvoid, Hkey. lia.
Qed.

(** X2: the button indices 0..15 split into the values of [_ButtonKeys] and
    [VOID_BUTTONS]: an index is void or the value of a key exactly when it
    lies in 0..15, and never both. *)
Theorem void_buttons_complement (i : Z) :
  (i ∈ VOID_BUTTONS ∨ is_Some (_ButtonKeys.of_value i) ↔ 0 ≤ i ≤ 15) ∧
  ¬ (i ∈ VOID_BUTTONS ∧ is_Some (_ButtonKeys.of_value i)).
Proof. apply void_or_key. Qed.

(** ** The table-building loops, run *)

Section TableLoop.

Context {K : Type}.
Variable lookup : Z → M K.
Variable f : Z → option K.
Variable msg : Z → string.
Hypothesis lookup_spec : ∀ i w,
  lookup i w = match f i with
               | Some k => (Ok k, w)
               | None => (Raise (ValueError (msg i)), w)
               end.

(** With every index known, the loop enters every index of the list. *)
Lemma table_loop_ok (l : list Z) (acc : gmap Z K) (w : World) :
  (∀ i, i ∈ l → is_Some (f i)) →
  ∃ ids,
    for_each l (λ ids i, k ← lookup i; mret (<[i:=k]> ids)) acc w = (Ok ids, w) ∧
    ∀ i, ids !! i = if decide (i ∈ l) then f i else acc !! i.
Proof.
  revert acc. induction l as [|x l IH]; intros acc Hall.
  - exists acc. split; [reflexivity|]. intros i.
    destruct (decide (i ∈ [])) as [Hin|_]; [inversion Hin | reflexivity].
  - destruct (Hall x) as [k Hk]; [left|].
    destruct (IH (<[x:=k]> acc)) as (ids & Hrun & Hids).
    { intros i Hi. apply Hall. right. exact Hi. }
    exists ids. split.
    + cbn [for_each]. erewrite bind_ok; [exact Hrun|].
      erewrite bind_ok; [reflexivity|]. rewrite lookup_spec, Hk. reflexivity.
    + intros i. rewrite Hids.
      destruct (decide (i ∈ l)) as [Hl|Hl].
      * rewrite decide_True by (right; exact Hl). reflexivity.
      * destruct (decide (i = x)) as [->|Hne].
        -- rewrite decide_True by left. rewrite lookup_insert_eq. auto.
        -- rewrite decide_False, lookup_insert_ne by (rewrite ?elem_of_cons; intuition congruence).
           reflexivity.
Qed.

(** The loop stops at the first unknown index, with that index's message. *)
Lemma table_loop_first_unknown (l1 l2 : list Z) (i : Z) (acc : gmap Z K) (w : World) :
  (∀ x, x ∈ l1 → is_Some (f x)) →
  f i = None →
  for_each (l1 ++ i :: l2) (λ ids i, k ← lookup i; mret (<[i:=k]> ids)) acc w =
  (Raise (ValueError (msg i)), w).
Proof.
  intros Hall Hi. revert acc. induction l1 as [|x l1 IH]; intros acc.
  - cbn [app for_each]. erewrite bind_raise; [reflexivity|].
    erewrite bind_raise; [reflexivity|]. rewrite lookup_spec, Hi. reflexivity.
  - destruct (Hall x) as [k Hk]; [left|].
    cbn [app for_each]. erewrite bind_ok.
    + apply IH. intros y Hy. apply Hall. right. exact Hy.
    + erewrite bind_ok; [reflexivity|]. rewrite lookup_spec, Hk. reflexivity.
Qed.

End TableLoop.

Lemma _AxisKeys_call_spec (i : Z) (w : World) :
  _AxisKeys_call i w =
  match _AxisKeys.of_value i with
  | Some k => (Ok k, w)
  | None => (Raise (ValueError (pretty i +:+ " is not a valid _AxisKeys")), w)
  end.
Proof. unfold _AxisKeys_call. destruct (_AxisKeys.of_value i); reflexivity. Qed.

Lemma _ButtonKeys_call_spec (i : Z) (w : World) :
  _ButtonKeys_call i w =
  match _ButtonKeys.of_value i with
  | Some k => (Ok k, w)
  | None => (Raise (ValueError (pretty i +:+ " is not a valid _ButtonKeys")), w)
  end.
Proof. unfold _ButtonKeys_call. destruct (_ButtonKeys.of_value i); reflexivity. Qed.

(** The indices the two loops visit. *)
Lemma range_known_axes (n : Z) :
  n ≤ 6 → ∀ i, i ∈ range n → is_Some (_AxisKeys.of_value i).
Proof.
  intros Hn i Hi. apply elem_of_seqZ in Hi.
  rewrite <- not_eq_None_Some, _AxisKeys_of_value_None. lia.
Qed.

Lemma mapped_buttons_known (n : Z) :
  n ≤ 16 →
  ∀ i, i ∈ filter (λ x, x ∉ VOID_BUTTONS) (range n) → is_Some (_ButtonKeys.of_value i).
Proof.
  intros Hn i Hi. apply list_elem_of_filter in Hi as [Hvoid Hi].
  apply elem_of_seqZ in Hi.
  destruct (void_or_key i) as [[_ Hsplit] _].
  destruct Hsplit as [Hv|Hk]; [lia | contradiction | exact Hk].
Qed.

Lemma range_split (n m : Z) :
  0 ≤ m < n → range n = (range m ++ m :: seqZ (Z.succ m) (Z.pred (n - m)))%list.
Proof.
  intros H. unfold range.
  replace n with (m + (n - m)) at 1 by lia.
  rewrite seqZ_app by lia. f_equal.
  rewrite Z.add_0_l. apply seqZ_cons. lia.
Qed.

(** ** The construction, outcome by outcome *)

(** More than six axes: the lookup of index 6 raises, before the buttons
    are counted a second time. *)
Lemma init_too_many_axes (joystick_id : Z) (w : World) :
  startswith (platform w) "win" = true →
  raw_name (joysticks w joystick_id) = "Xbox Series X Controller" →
  6 < raw_numaxes (joysticks w joystick_id) →
  __init__ joystick_id w =
  (Raise (ValueError "6 is not a valid _AxisKeys"),
   add_calls w (init_prefix_calls joystick_id (raw_name (joysticks w joystick_id))
                ++ [LoggerInfo "Running on Windows";
                    JoystickGetNumaxes joystick_id;
                    JoystickGetNumbuttons joystick_id;
                    JoystickGetNumaxes joystick_id])).
Proof.
  intros Hp Hn Hax. rewrite init_supported by assumption. cbv zeta.
  erewrite bind_raise; [reflexivity|].
  rewrite (range_split _ 6) by lia.
  apply (table_loop_first_unknown _AxisKeys_call _AxisKeys.of_value
           (λ i, pretty i +:+ " is not a valid _AxisKeys") _AxisKeys_call_spec).
  - apply range_known_axes. lia.
  - reflexivity.
Qed.

(** At most six axes but more than sixteen buttons: the lookup of index 16
    raises. *)
Lemma init_too_many_buttons (joystick_id : Z) (w : World) :
  startswith (platform w) "win" = true →
  raw_name (joysticks w joystick_id) = "Xbox Series X Controller" →
  raw_numaxes (joysticks w joystick_id) ≤ 6 →
  16 < raw_numbuttons (joysticks w joystick_id) →
  __init__ joystick_id w =
  (Raise (ValueError "16 is not a valid _ButtonKeys"),
   add_calls w (init_ok_calls joystick_id (raw_name (joysticks w joystick_id)))).
Proof.
  intros Hp Hn Hax Hbt. rewrite init_supported by assumption. cbv zeta.
  set (w1 := add_calls w _).
  destruct (table_loop_ok _AxisKeys_call _AxisKeys.of_value
              (λ i, pretty i +:+ " is not a valid _AxisKeys") _AxisKeys_call_spec
              (range (raw_numaxes (joysticks w joystick_id))) ∅ w1) as (ids & Hrun & _).
  { apply range_known_axes. exact Hax. }
  erewrite bind_ok by exact Hrun.
  erewrite bind_ok by reflexivity.
  subst w1. cbn [joysticks add_calls].
  erewrite bind_raise; cycle 1.
  { rewrite (range_split _ 16) by lia.
    rewrite filter_app, filter_cons_True
      by (unfold VOID_BUTTONS; rewrite !elem_of_cons, elem_of_nil; lia).
    apply (table_loop_first_unknown _ButtonKeys_call _ButtonKeys.of_value
             (λ i, pretty i +:+ " is not a valid _ButtonKeys") _ButtonKeys_call_spec).
    - apply mapped_buttons_known. lia.
    - reflexivity. }
  apply pair_equal_spec. split; [reflexivity|].
  unfold add_calls, init_ok_calls; cbn [calls platform joysticks effective_level].
  f_equal. rewrite <- !app_assoc. reflexivity.
Qed.

(** At most six axes and sixteen buttons: the construction succeeds after
    ten calls, and the adapter holds the two tables, the two arrays, the
    joystick and the dead zone. *)
Lemma init_ok_run (joystick_id : Z) (w : World) :
  let h := joysticks w joystick_id in
  startswith (platform w) "win" = true →
  raw_name h = "Xbox Series X Controller" →
  raw_numaxes h ≤ 6 →
  raw_numbuttons h ≤ 16 →
  ∃ axis_ids button_ids,
    __init__ joystick_id w =
    (Ok (mkWindowsXboxPyGameJoystick joystick_id
           (list_repeat 0%float (raw_numaxes h)) (list_repeat false (raw_numbuttons h))
           axis_ids button_ids 0.07%float),
     add_calls w (init_ok_calls joystick_id (raw_name h))) ∧
    (∀ i, axis_ids !! i =
          if decide (0 ≤ i < raw_numaxes h) then _AxisKeys.of_value i else None) ∧
    (∀ i, button_ids !! i =
          if decide (0 ≤ i < raw_numbuttons h ∧ i ∉ VOID_BUTTONS)
          then _ButtonKeys.of_value i else None).
Proof.
  intros h Hp Hn Hax Hbt. subst h. rewrite init_supported by assumption. cbv zeta.
  set (h := joysticks w joystick_id) in *.
  set (w1 := add_calls w _).
  destruct (table_loop_ok _AxisKeys_call _AxisKeys.of_value
              (λ i, pretty i +:+ " is not a valid _AxisKeys") _AxisKeys_call_spec
              (range (raw_numaxes h)) ∅ w1) as (axis_ids & Hrun1 & Hids1).
  { apply range_known_axes. exact Hax. }
  erewrite bind_ok by exact Hrun1.
  erewrite bind_ok by reflexivity.
  subst w1. cbn [joysticks add_calls]. fold h.
  match goal with |- context [mbind _ (for_each _ _ _) ?W] => set (w2 := W) end.
  destruct (table_loop_ok _ButtonKeys_call _ButtonKeys.of_value
              (λ i, pretty i +:+ " is not a valid _ButtonKeys") _ButtonKeys_call_spec
              (filter (λ x, x ∉ VOID_BUTTONS) (range (raw_numbuttons h))) ∅ w2)
    as (button_ids & Hrun2 & Hids2).
  { apply mapped_buttons_known. exact Hbt. }
  erewrite bind_ok by exact Hrun2.
  exists axis_ids, button_ids. split; [|split].
  - subst w2. unfold add_calls, init_ok_calls; cbn [calls platform joysticks effective_level].
    unfold mret, M_ret.
    apply pair_equal_spec. split; [reflexivity|].
    f_equal. rewrite <- !app_assoc. reflexivity.
  - intros i. rewrite Hids1, lookup_empty.
    destruct (decide (i ∈ range (raw_numaxes h))) as [Hi|Hi];
      unfold range in Hi; rewrite elem_of_seqZ in Hi.
    + rewrite decide_True by lia. reflexivity.
    + rewrite decide_False by lia. reflexivity.
  - intros i. rewrite Hids2, lookup_empty.
    destruct (decide (i ∈ filter (λ x, x ∉ VOID_BUTTONS) (range (raw_numbuttons h))))
      as [Hi|Hi]; unfold range in Hi; rewrite list_elem_of_filter, elem_of_seqZ in Hi.
    + rewrite decide_True by (split; [lia | tauto]). reflexivity.
    + rewrite decide_False; [reflexivity|]. intros [H1 H2]. apply Hi. split; [exact H2 | lia].
Qed.

(** X3: the construction returns an adapter exactly when the platform name
    starts with "win", the device is named "Xbox Series X Controller", and
    the device reports at most six axes and at most sixteen buttons. *)
Theorem init_succeeds_iff (joystick_id : Z) (w : World) :
  let h := joysticks w joystick_id in
  (∃ self w', __init__ joystick_id w = (Ok self, w')) ↔
  startswith (platform w) "win" = true ∧
  raw_name h = "Xbox Series X Controller" ∧
  raw_numaxes h ≤ 6 ∧
  raw_numbuttons h ≤ 16.
Proof.
  intros h. split.
  - intros (self & w' & H).
    destruct (init_ok_inv _ _ _ _ H) as (Hp & Hn & _).
    split; [exact Hp|]. split; [exact Hn|].
    destruct (decide (raw_numaxes h ≤ 6)) as [Hax|Hax].
    + split; [exact Hax|].
      destruct (decide (raw_numbuttons h ≤ 16)) as [Hbt|Hbt]; [exact Hbt|].
      rewrite init_too_many_buttons in H by (assumption || (fold h; lia)).
      discriminate H.
    + rewrite init_too_many_axes in H by (assumption || (fold h; lia)).
      discriminate H.
  - intros (Hp & Hn & Hax & Hbt).
    destruct (init_ok_run joystick_id w Hp Hn Hax Hbt) as (a & b & H & _).
    eexists _, _. exact H.
Qed.

(** X4: after a successful construction, [axis_ids] maps exactly the
    indices below the reported axis count, each to the axis key with that
    value, and [button_ids] maps exactly the indices below the reported
    button count that are not void, each to the button key with that
    value. *)
Theorem init_tables (joystick_id : Z) (w w' : World) (self : WindowsXboxPyGameJoystick) :
  __init__ joystick_id w = (Ok self, w') →
  let h := joysticks w joystick_id in
  (∀ i k, axis_ids self !! i = Some k ↔
          0 ≤ i < raw_numaxes h ∧ _AxisKeys.value k = i) ∧
  (∀ i k, button_ids self !! i = Some k ↔
          0 ≤ i < raw_numbuttons h ∧ (i ∉ VOID_BUTTONS) ∧ _ButtonKeys.value k = i).
Proof.
  intros H h.
  assert (startswith (platform w) "win" = true ∧
          raw_name h = "Xbox Series X Controller" ∧
          raw_numaxes h ≤ 6 ∧ raw_numbuttons h ≤ 16) as (Hp & Hn & Hax & Hbt).
  { destruct (init_ok_inv _ _ _ _ H) as (Hp & Hn & _).
    split; [exact Hp|]. split; [exact Hn|].
    destruct (decide (raw_numaxes h ≤ 6)) as [Hax|Hax].
    - split; [exact Hax|].
      destruct (decide (raw_numbuttons h ≤ 16)) as [Hbt|Hbt]; [exact Hbt|].
      rewrite init_too_many_buttons in H by (assumption || (fold h; lia)).
      discriminate H.
    - rewrite init_too_many_axes in H by (assumption || (fold h; lia)).
      discriminate H. }
  destruct (init_ok_run joystick_id w Hp Hn Hax Hbt) as (a & b & Hrun & Ha & Hb).
  rewrite Hrun in H. injection H as <- _. cbn [axis_ids button_ids]. fold h in Ha, Hb.
  split; intros i k.
  - rewrite Ha. destruct (decide (0 ≤ i < raw_numaxes h)) as [Hi|Hi].
    + rewrite _AxisKeys_of_value_Some. tauto.
    + split; [discriminate | tauto].
  - rewrite Hb.
    destruct (decide (0 ≤ i < raw_numbuttons h ∧ i ∉ VOID_BUTTONS)) as [Hi|Hi].
    + rewrite _ButtonKeys_of_value_Some. tauto.
    + split; [discriminate | tauto].
Qed.

Lemma init_tables_witness :
  (∀ i k, axis_ids small_adapter !! i = Some k ↔ 0 ≤ i < 2 ∧ _AxisKeys.value k = i) ∧
  (∀ i k, button_ids small_adapter !! i = Some k ↔
          0 ≤ i < 3 ∧ (i ∉ VOID_BUTTONS) ∧ _ButtonKeys.value k = i).
Proof.
  apply (init_tables 0 small_world (snd (__init__ 0 small_world)) small_adapter).
  vm_compute. reflexivity.
Defined.

(** X5: after a successful construction, [axis_states] has one entry 0.0
    per reported axis, [button_states] one entry False per reported button,
    the adapter polls the joystick with the id it was given, and its dead
    zone is 0.07. *)
Theorem init_arrays (joystick_id : Z) (w w' : World) (self : WindowsXboxPyGameJoystick) :
  __init__ joystick_id w = (Ok self, w') →
  let h := joysticks w joystick_id in
  axis_states self = replicate (Z.to_nat (raw_numaxes h)) 0%float ∧
  button_states self = replicate (Z.to_nat (raw_numbuttons h)) false ∧
  joystick self = joystick_id ∧
  dead_zone self = 0.07%float.
Proof.
  intros H h.
  destruct (init_ok_inv _ _ _ _ H) as (Hp & Hn & _).
  rewrite init_supported in H by assumption. cbv zeta in H.
  apply bind_ok_inv in H as (a & w1 & _ & H).
  apply bind_ok_inv in H as (n & w2 & _ & H).
  apply bind_ok_inv in H as (b & w3 & _ & H).
  injection H as <- _. repeat split.
Qed.

Lemma init_arrays_witness :
  axis_states sample_adapter = replicate 6 0%float ∧
  button_states sample_adapter = replicate 16 false ∧
  joystick sample_adapter = 0 ∧
  dead_zone sample_adapter = 0.07%float.
Proof.
  apply (init_arrays 0 xbox_world (snd (__init__ 0 xbox_world)) sample_adapter).
  vm_compute. reflexivity.
Defined.

(** X6: a failing construction raises the first of these that applies: the
    fixed platform message when the platform name does not start with
    "win"; the device message when the name is not the expected one; "6 is
    not a valid _AxisKeys" when more than six axes are reported, whatever
    the count; "16 is not a valid _ButtonKeys" otherwise. *)
Theorem init_error_precedence (joystick_id : Z) (w w' : World) (e : exn) :
  __init__ joystick_id w = (Raise e, w') →
  let h := joysticks w joystick_id in
  e = ValueError
        (if negb (startswith (platform w) "win") then
           "This class is only supported on Windows systems"
         else if negb (String.eqb (raw_name h) "Xbox Series X Controller") then
           "Xbox controller not detected. Controller detected was " +:+ raw_name h
         else if 6 <? raw_numaxes h then "6 is not a valid _AxisKeys"
         else "16 is not a valid _ButtonKeys").
Proof.
  intros H h.
  destruct (startswith (platform w) "win") eqn:Hp; cbn [negb].
  2:{ rewrite init_unsupported_platform in H by exact Hp. congruence. }
  destruct (String.eqb_spec (raw_name h) "Xbox Series X Controller") as [Hn|Hn]; cbn [negb].
  2:{ rewrite init_wrong_name in H by assumption. fold h in H. congruence. }
  destruct (Z.ltb_spec 6 (raw_numaxes h)) as [Hax|Hax].
  { rewrite init_too_many_axes in H by assumption. congruence. }
  destruct (decide (raw_numbuttons h ≤ 16)) as [Hbt|Hbt].
  - destruct (init_ok_run joystick_id w Hp Hn Hax Hbt) as (a & b & Hrun & _).
    rewrite Hrun in H. discriminate H.
  - rewrite init_too_many_buttons in H by (assumption || (fold h; lia)). congruence.
Qed.

Lemma init_error_precedence_witness :
  fst (__init__ 0 seven_axes_world) = Raise (ValueError "6 is not a valid _AxisKeys") ∧
  ValueError "6 is not a valid _AxisKeys" =
  ValueError
    (if negb (startswith (platform seven_axes_world) "win") then
       "This class is only supported on Windows systems"
     else if negb (String.eqb (raw_name (joysticks seven_axes_world 0))
                              "Xbox Series X Controller") then
       "Xbox controller not detected. Controller detected was "
       +:+ raw_name (joysticks seven_axes_world 0)
     else if 6 <? raw_numaxes (joysticks seven_axes_world 0)
          then "6 is not a valid _AxisKeys"
          else "16 is not a valid _ButtonKeys").
Proof.
  split; [vm_compute; reflexivity|].
  apply (init_error_precedence 0 seven_axes_world (snd (__init__ 0 seven_axes_world))).
  vm_compute. reflexivity.
Defined.

(** X7: whatever its outcome, the construction first initialises the
    joystick module, creates and initialises the joystick, asks its name and
    logs it; after that it only logs "Running on Windows" and asks the axis
    and button counts.  It reads no axis, button or hat, and it never quits
    the joystick, also when it fails. *)
Theorem init_calls (joystick_id : Z) (w : World) :
  let name := raw_name (joysticks w joystick_id) in
  ∃ rest,
    calls (snd (__init__ joystick_id w)) =
      (calls w ++ init_prefix_calls joystick_id name ++ rest)%list ∧
    Forall (init_call_ok joystick_id) rest.
Proof.
  intros name. subst name. set (h := joysticks w joystick_id).
  assert (∀ rest : list Call,
            Forall (λ c, c ∈ [LoggerInfo "Running on Windows";
                              JoystickGetNumaxes joystick_id;
                              JoystickGetNumbuttons joystick_id]) rest →
            Forall (init_call_ok joystick_id) rest) as Hok.
  { intros rest Hrest. eapply Forall_impl; [exact Hrest|].
    intros c Hc. unfold init_call_ok.
    rewrite !elem_of_cons, elem_of_nil in Hc. tauto. }
  destruct (startswith (platform w) "win") eqn:Hp.
  2:{ exists []. rewrite init_unsupported_platform by exact Hp.
      cbn [snd add_calls calls]. rewrite app_nil_r. split; [reflexivity | constructor]. }
  destruct (String.eqb_spec (raw_name h) "Xbox Series X Controller") as [Hn|Hn].
  2:{ eexists. rewrite init_wrong_name by assumption.
      cbn [snd add_calls calls]. split; [reflexivity|].
      apply Hok. repeat constructor. }
  destruct (decide (raw_numaxes h ≤ 6)) as [Hax|Hax].
  2:{ eexists. rewrite init_too_many_axes by (assumption || (fold h; lia)).
      cbn [snd add_calls calls]. split; [reflexivity|].
      apply Hok. repeat first [constructor | apply list_elem_of_here
                              | apply list_elem_of_further]. }
  destruct (decide (raw_numbuttons h ≤ 16)) as [Hbt|Hbt].
  - destruct (init_ok_run joystick_id w Hp Hn Hax Hbt) as (a & b & Hrun & _).
    eexists. rewrite Hrun. cbn [snd add_calls calls]. unfold init_ok_calls.
    split; [reflexivity|].
    apply Hok. repeat first [constructor | apply list_elem_of_here
                            | apply list_elem_of_further].
  - eexists. rewrite init_too_many_buttons by (assumption || (fold h; lia)).
    cbn [snd add_calls calls]. unfold init_ok_calls.
    split; [reflexivity|].
    apply Hok. repeat first [constructor | apply list_elem_of_here
                            | apply list_elem_of_further].
Qed.

(** ** Disposal *)

(** X8: [dispose] on a constructed adapter quits the joystick that was
    created for the id given to the constructor, and nothing guards a second
    [dispose]: it quits the joystick again. *)
Theorem dispose_quits_created_joystick
    (joystick_id : Z) (w w1 w2 : World) (self : WindowsXboxPyGameJoystick) :
  __init__ joystick_id w = (Ok self, w1) →
  (dispose self;; dispose self) w2 =
  (Ok (), add_calls w2 [JoystickQuit joystick_id; JoystickQuit joystick_id]).
Proof.
  intros H. apply init_ok_inv in H as (_ & _ & Hj & _).
  unfold dispose. rewrite Hj.
  erewrite bind_ok by reflexivity.
  unfold joystick_quit, call, add_calls; cbn [calls platform joysticks effective_level].
  rewrite <- app_assoc. reflexivity.
Qed.

Lemma dispose_quits_created_joystick_witness :
  (dispose sample_adapter;; dispose sample_adapter) xbox_world =
  (Ok (), add_calls xbox_world [JoystickQuit 0; JoystickQuit 0]).
Proof.
  apply (dispose_quits_created_joystick 0 xbox_world (snd (__init__ 0 xbox_world))
           xbox_world sample_adapter).
  vm_compute. reflexivity.
Defined.

(** ** What a poll does and does not do *)

(** X9: the calls of one [get_state] are, besides the event pump and the
    logging, reads on the adapter's own joystick only: of axes 0..5, of
    buttons that are values of [_ButtonKeys] (never an index of
    [VOID_BUTTONS]) and of hat 0.  It never asks the name or the counts and
    never initialises or quits anything. *)
Theorem get_state_call_discipline (self : WindowsXboxPyGameJoystick) (w : World) :
  ∃ new,
    calls (snd (get_state self w)) = (calls w ++ new)%list ∧
    Forall (poll_call_ok (joystick self)) new.
Proof.
  rewrite get_state_run. cbv zeta. cbn [snd add_calls calls].
  eexists. split; [reflexivity|].
  apply Forall_app. split.
  - unfold poll_calls.
    repeat (apply Forall_cons; split;
            [cbn; try exact I;
             repeat split; try lia;
             try (unfold VOID_BUTTONS; rewrite !elem_of_cons, elem_of_nil; lia);
             try (eexists; reflexivity) |]).
    constructor.
  - unfold debug_calls. destruct (effective_level w =? logging_DEBUG).
    + repeat (apply Forall_cons; split; [exact I|]). constructor.
    + constructor.
Qed.

Lemma count_calls_cons (p : Call → bool) (c : Call) (cs : list Call) :
  count_calls p (c :: cs) = ((if p c then 1 else 0) + count_calls p cs)%nat.
Proof. unfold count_calls. cbn. destruct (p c); reflexivity. Qed.

Lemma count_calls_app (p : Call → bool) (cs1 cs2 : list Call) :
  count_calls p (cs1 ++ cs2) = (count_calls p cs1 + count_calls p cs2)%nat.
Proof. unfold count_calls. rewrite List.filter_app, length_app. reflexivity. Qed.

Lemma count_calls_debug (p : Call → bool) (level : Z) (dz : float) (h : RawHandle) :
  (∀ r, p (LoggerDebug r) = false) →
  count_calls p (debug_calls level dz h) = 0%nat.
Proof.
  intros Hp. unfold debug_calls.
  destruct (level =? logging_DEBUG); [|reflexivity].
  rewrite !count_calls_cons, !Hp. reflexivity.
Qed.

(** X10: one [get_state] reads every axis of [_AxisKeys] once and hat 0
    once, but every button of [_ButtonKeys] twice: once for the field of the
    state and once for the list of pressed buttons. *)
Theorem get_state_read_counts (self : WindowsXboxPyGameJoystick) (w : World) :
  let j := joystick self in
  ∃ new,
    calls (snd (get_state self w)) = (calls w ++ new)%list ∧
    (∀ k, count_calls (is_axis_read j (_AxisKeys.value k)) new = 1%nat) ∧
    (∀ k, count_calls (is_button_read j (_ButtonKeys.value k)) new = 2%nat) ∧
    count_calls (is_hat_read j 0) new = 1%nat.
Proof.
  intros j. rewrite get_state_run. cbv zeta. cbn [snd add_calls calls]. fold j.
  eexists. split; [reflexivity|].
  split; [|split].
  - intros k. rewrite count_calls_app, count_calls_debug by reflexivity.
    unfold poll_calls. rewrite !count_calls_cons.
    cbn [is_axis_read]. rewrite !Z.eqb_refl. destruct k; reflexivity.
  - intros k. rewrite count_calls_app, count_calls_debug by reflexivity.
    unfold poll_calls. rewrite !count_calls_cons.
    cbn [is_button_read]. rewrite !Z.eqb_refl. destruct k; reflexivity.
  - rewrite count_calls_app, count_calls_debug by reflexivity.
    unfold poll_calls. rewrite !count_calls_cons.
    cbn [is_hat_read]. rewrite !Z.eqb_refl. reflexivity.
Qed.

(** X11: [get_state] logs only when the effective level of the logger is
    DEBUG; then it logs, after all reads, the axes and the buttons of the
    very state it returns and a list of names.  At any other level it makes
    no logger call.  The state returned is the same in both cases. *)
Theorem get_state_logging (self : WindowsXboxPyGameJoystick) (w : World) :
  ∃ st w' reads,
    get_state self w = (Ok st, w') ∧
    count_calls is_logger_call reads = 0%nat ∧
    (effective_level w ≠ logging_DEBUG → calls w' = (calls w ++ reads)%list) ∧
    (effective_level w = logging_DEBUG →
     ∃ names,
       calls w' = (calls w ++ reads ++
                   [LoggerDebug (DebugAxes (axes st));
                    LoggerDebug (DebugButtons (buttons st));
                    LoggerDebug (DebugPressedButtons names)])%list) ∧
    ∀ level,
      fst (get_state self (mkWorld (platform w) (joysticks w) level (calls w))) = Ok st.
Proof.
  rewrite get_state_run. cbv zeta.
  eexists _, _, (poll_calls (joystick self)). split; [reflexivity|].
  split; [reflexivity|].
  cbn [calls add_calls]. unfold debug_calls.
  split; [|split].
  - intros Hl. apply Z.eqb_neq in Hl. rewrite Hl, app_nil_r. reflexivity.
  - intros Hl. rewrite Hl, Z.eqb_refl. eexists. reflexivity.
  - intros level. rewrite get_state_run. reflexivity.
Qed.

(** ** The two lists of pressed buttons *)

Lemma _ButtonKeys_name_inj (k1 k2 : _ButtonKeys.t) :
  _ButtonKeys.name k1 = _ButtonKeys.name k2 → k1 = k2.
Proof. destruct k1, k2; intros H; first [reflexivity | discriminate H]. Qed.

(** The two orders differ in the place of [SCREENSHOT] only. *)
Lemma pressed_names_split (p : _ButtonKeys.t → bool) :
  let front := map _ButtonKeys.name
                 (List.filter p [_ButtonKeys.A; _ButtonKeys.B; _ButtonKeys.X; _ButtonKeys.Y;
                                 _ButtonKeys.LB; _ButtonKeys.RB; _ButtonKeys.VIEW;
                                 _ButtonKeys.MENU]) in
  let sticks := map _ButtonKeys.name
                  (List.filter p [_ButtonKeys.LEFT_STICK; _ButtonKeys.RIGHT_STICK]) in
  let shot := map _ButtonKeys.name (List.filter p [_ButtonKeys.SCREENSHOT]) in
  map _ButtonKeys.name (List.filter p _ButtonKeys.members) = (front ++ sticks ++ shot)%list ∧
  map _ButtonKeys.name (List.filter p field_keys) = (front ++ shot ++ sticks)%list.
Proof.
  intros front sticks shot. subst front sticks shot.
  rewrite <- !map_app, <- !List.filter_app. split; reflexivity.
Qed.

(** X12: at level DEBUG, the list of names [get_state] logs and the list
    [get_pressed_buttons] returns on the returned state hold the same names;
    they are the same list unless [SCREENSHOT] is pressed together with
    [LEFT_STICK] or [RIGHT_STICK]. *)
Theorem logged_and_returned_names (self : WindowsXboxPyGameJoystick) (w : World) :
  effective_level w = logging_DEBUG →
  let h := joysticks w (joystick self) in
  ∃ st w' logged,
    get_state self w = (Ok st, w') ∧
    last_call w' = Some (LoggerDebug (DebugPressedButtons logged)) ∧
    logged ≡ₚ _ButtonPressedState.get_pressed_buttons (buttons st) ∧
    (logged = _ButtonPressedState.get_pressed_buttons (buttons st) ↔
     ¬ (raw_button h 11 = true ∧ (raw_button h 8 = true ∨ raw_button h 9 = true))).
Proof.
  intros Hlevel h. rewrite get_state_run. cbv zeta. fold h.
  eexists _, _, _. split; [reflexivity|].
  split.
  { unfold last_call, add_calls, debug_calls; cbn [calls].
    rewrite Hlevel, Z.eqb_refl, !last_app. reflexivity. }
  rewrite get_pressed_buttons_keys.
  change (List.filter (pressed (buttons (snapshot (dead_zone self) h))) field_keys)
    with (List.filter (λ k, raw_button h (_ButtonKeys.value k)) field_keys).
  unfold pressed_keys.
  destruct (pressed_names_split (λ k, raw_button h (_ButtonKeys.value k))) as [-> ->].
  split.
  - apply Permutation_app_head, Permutation_app_comm.
  - split.
    + intros Heq. apply app_inv_head in Heq. cbn in Heq.
      destruct (raw_button h 11), (raw_button h 8), (raw_button h 9);
        cbn in Heq; first [discriminate Heq | intuition discriminate].
    + intros Hno. f_equal. cbn.
      destruct (raw_button h 11), (raw_button h 8), (raw_button h 9);
        cbn; first [reflexivity | exfalso; apply Hno; auto].
Qed.

Lemma logged_and_returned_names_witness :
  (∃ st w' logged,
     get_state sample_adapter screenshot_world = (Ok st, w') ∧
     last_call w' = Some (LoggerDebug (DebugPressedButtons logged)) ∧
     logged ≡ₚ _ButtonPressedState.get_pressed_buttons (buttons st) ∧
     (logged = _ButtonPressedState.get_pressed_buttons (buttons st) ↔
      ¬ (true = true ∧ (true = true ∨ false = true)))) ∧
  (∃ st w' logged,
     get_state sample_adapter screenshot_only_world = (Ok st, w') ∧
     last_call w' = Some (LoggerDebug (DebugPressedButtons logged)) ∧
     logged ≡ₚ _ButtonPressedState.get_pressed_buttons (buttons st) ∧
     (logged = _ButtonPressedState.get_pressed_buttons (buttons st) ↔
      ¬ (true = true ∧ (false = true ∨ false = true)))).
Proof.
  split.
  - apply (logged_and_returned_names sample_adapter screenshot_world). reflexivity.
  - apply (logged_and_returned_names sample_adapter screenshot_only_world). reflexivity.
Defined.

(** X13: for every button state, [get_pressed_buttons] returns the name of a
    button exactly when its flag is set, and returns no name twice; so it is
    empty exactly when no flag is set. *)
Theorem get_pressed_buttons_exact (b : _ButtonPressedState.t) :
  (∀ k, _ButtonKeys.name k ∈ _ButtonPressedState.get_pressed_buttons b ↔
        pressed b k = true) ∧
  (∀ s, s ∈ _ButtonPressedState.get_pressed_buttons b → ∃ k, s = _ButtonKeys.name k) ∧
  NoDup (_ButtonPressedState.get_pressed_buttons b) ∧
  (_ButtonPressedState.get_pressed_buttons b = [] ↔ ∀ k, pressed b k = false).
Proof.
  rewrite get_pressed_buttons_keys.
  assert (∀ k, _ButtonKeys.name k ∈ map _ButtonKeys.name (List.filter (pressed b) field_keys)
               ↔ pressed b k = true) as Hmem.
  { intros k. rewrite list_elem_of_fmap. split.
    - intros (y & Hy & Hin). apply _ButtonKeys_name_inj in Hy as <-.
      apply list_elem_of_In, filter_In in Hin. tauto.
    - intros Hk. exists k. split; [reflexivity|].
      apply list_elem_of_In, filter_In. split; [|exact Hk].
      destruct k; cbn; tauto. }
  split; [exact Hmem|].
  split.
  { intros s Hs. apply list_elem_of_fmap in Hs as (k & -> & _). exists k. reflexivity. }
  split.
  { apply NoDup_fmap_2; [intros k1 k2; apply _ButtonKeys_name_inj|].
    apply NoDup_ListNoDup, List.NoDup_filter, NoDup_ListNoDup. unfold field_keys.
    repeat (apply NoDup_cons; split;
            [rewrite ?elem_of_cons, elem_of_nil; intuition discriminate|]).
    apply NoDup_nil_2. }
  split.
  - intros Hnil k. destruct (pressed b k) eqn:Hk; [|reflexivity].
    apply Hmem in Hk. rewrite Hnil in Hk. inversion Hk.
  - intros Hnone.
    assert (∀ l, List.filter (pressed b) l = []) as ->; [|reflexivity].
    induction l as [|x l IH]; cbn; rewrite ?Hnone; auto.
Qed.

(** ** The dead zone at the edges *)

(** X14: no channel of a returned axes state holds a non-zero value inside
    the dead zone: a channel value whose magnitude is below the adapter's
    dead zone is 0.0. *)
Theorem no_small_nonzero_output (self : WindowsXboxPyGameJoystick) (w : World)
    (k : _AxisKeys.t) :
  ∃ st w',
    get_state self w = (Ok st, w') ∧
    ((abs (channel k (axes st)) <? dead_zone self)%float = true →
     channel k (axes st) = 0%float).
Proof.
  rewrite get_state_run. cbv zeta.
  eexists _, _. split; [reflexivity|].
  destruct k; cbn [channel axes snapshot left_stick right_stick horizontal_right
                   vertical_down left_analog_trigger right_analog_trigger];
    match goal with
    | |- context [if ?c then _ else _] => destruct c eqn:Hc
    end; intros H; first [reflexivity | congruence].
Qed.

Lemma non_finite_not_below (r dz : float) :
  r = nan ∨ r = infinity ∨ r = neg_infinity → (abs r <? dz)%float = false.
Proof.
  intros Hr. rewrite ltb_spec, abs_spec.
  assert (SFabs (Prim2SF r) = S754_nan ∨ SFabs (Prim2SF r) = S754_infinity false) as Habs.
  { destruct Hr as [->|[->| ->]]; [left | right | right]; reflexivity. }
  destruct Habs as [-> | ->]; [reflexivity|].
  destruct (Prim2SF dz) as [s|s| |s m e]; try destruct s; reflexivity.
Qed.

(** X15: a reading that is NaN or an infinity is never replaced: whatever
    the dead zone of the adapter, the channel returns the reading itself. *)
Theorem non_finite_readings_pass_through (self : WindowsXboxPyGameJoystick) (w : World)
    (k : _AxisKeys.t) :
  let r := raw_axis (joysticks w (joystick self)) (_AxisKeys.value k) in
  r = nan ∨ r = infinity ∨ r = neg_infinity →
  ∃ st w',
    get_state self w = (Ok st, w') ∧
    channel k (axes st) = r.
Proof.
  intros r Hr. rewrite get_state_run. cbv zeta.
  eexists _, _. split; [reflexivity|].
  pose proof (non_finite_not_below r (dead_zone self) Hr) as Hlt. subst r.
  destruct k; cbn in Hlt |- *; rewrite Hlt; reflexivity.
Qed.

Lemma non_finite_readings_pass_through_witness :
  (∃ st w',
     get_state sample_adapter nan_world = (Ok st, w') ∧
     channel _AxisKeys.LEFT_STICK_HORIZONTAL (axes st) = nan) ∧
  (∃ st w',
     get_state sample_adapter nan_world = (Ok st, w') ∧
     channel _AxisKeys.LEFT_STICK_VERTICAL (axes st) = infinity).
Proof.
  split.
  - apply (non_finite_readings_pass_through sample_adapter nan_world
             _AxisKeys.LEFT_STICK_HORIZONTAL).
    left. reflexivity.
  - apply (non_finite_readings_pass_through sample_adapter nan_world
             _AxisKeys.LEFT_STICK_VERTICAL).
    right. left. reflexivity.
Defined.

(** ** The demo's printer *)

(** Induction over nested mappings. *)
Lemma PyValue_nested_ind (P : PyValue → Prop) :
  (∀ items, Forall (λ kv, P (snd kv)) items → P (PyDict items)) →
  (∀ s, P (PyOther s)) →
  ∀ v, P v.
Proof.
  intros Hdict Hother. fix IH 1. intros [items|s]; [|apply Hother].
  apply Hdict.
  refine ((fix IHl (items : list (string * PyValue)) :
             Forall (λ kv, P (snd kv)) items :=
             match items with
             | [] => @List.Forall_nil _ _
             | kv :: rest => @List.Forall_cons _ _ kv rest (IH (snd kv)) (IHl rest)
             end) items).
Qed.

(** [print_state], statement by statement. *)
Lemma print_state_nil (indent : string) : print_state [] indent = [].
Proof. reflexivity. Qed.

Lemma print_state_cons (k : string) (v : PyValue) (rest : list (string * PyValue))
    (indent : string) :
  print_state ((k, v) :: rest) indent =
  (match v with
   | PyDict sub => (indent +:+ k +:+ ":") :: print_state sub (indent +:+ "  ")
   | PyOther s => [indent +:+ k +:+ ": " +:+ s]
   end ++ print_state rest indent)%list.
Proof. destruct v; reflexivity. Qed.

Example print_state_sample :
  print_state sample_dict "" =
  ["axes:";
   "  left_stick:";
   "    horizontal_right: 0.0";
   "    vertical_down: -0.5";
   "  left_analog_trigger: 0.0";
   "buttons:";
   "d_pad:";
   "  horizontal: 1";
   "  vertical: -1"].
Proof. reflexivity. Qed.

Lemma append_assoc (a b c : string) : (a +:+ b) +:+ c = a +:+ (b +:+ c).
Proof.
  induction a as [|x a IH]; [reflexivity|].
  change (String x ((a +:+ b) +:+ c) = String x (a +:+ (b +:+ c))).
  rewrite IH. reflexivity.
Qed.

(** X16: printing with the indent [a +:+ b] prints the lines printed with
    the indent [b], each with [a] put in front: every line starts with the
    indent, and the lines of a nested mapping are indented by two more
    spaces per level. *)
Theorem print_state_indent (state_dict : list (string * PyValue)) (a b : string) :
  print_state state_dict (a +:+ b) = map (String.append a) (print_state state_dict b).
Proof.
  change (print_dict (PyDict state_dict) (a +:+ b) =
          map (String.append a) (print_dict (PyDict state_dict) b)).
  revert a b. induction (PyDict state_dict) as [items Hitems|s] using PyValue_nested_ind;
    [|reflexivity].
  intros a b. change (print_state items (a +:+ b) = map (String.append a) (print_state items b)).
  induction Hitems as [|[k v] rest Hv _ IHrest]; [reflexivity|].
  rewrite !print_state_cons, map_app, IHrest. f_equal.
  destruct v as [sub|s]; cbn [map].
  - rewrite !append_assoc. f_equal.
    exact (Hv a (b +:+ "  ")).
  - rewrite !append_assoc. reflexivity.
Qed.

(** X17: [print_state] prints one line per key of the mapping, counting the
    keys of the nested mappings too; an empty mapping prints nothing. *)
Theorem print_state_line_count (state_dict : list (string * PyValue)) (indent : string) :
  length (print_state state_dict indent) = count_keys (PyDict state_dict).
Proof.
  change (length (print_dict (PyDict state_dict) indent) = count_keys (PyDict state_dict)).
  revert indent.
  induction (PyDict state_dict) as [items Hitems|s] using PyValue_nested_ind;
    [|reflexivity].
  intros indent.
  change (length (print_state items indent) = count_keys (PyDict items)).
  induction Hitems as [|[k v] rest Hv _ IHrest]; [reflexivity|].
  rewrite print_state_cons, length_app, IHrest.
  change (count_keys (PyDict ((k, v) :: rest)))
    with (S (count_keys v + count_keys (PyDict rest))).
  cbn [snd] in Hv. destruct v as [sub|s].
  - cbn [length]. unfold print_state. rewrite (Hv (indent +:+ "  ")). reflexivity.
  - reflexivity.
Qed.
